(** * Breakway Gas backend ([server.js]): request authorisation and
      state transitions of users, orders and support tickets.

    The Express application keeps one in-memory object [db] with three
    arrays and installs twelve routes over it.  The development below
    embeds the JavaScript values the routes manipulate, the two
    middlewares, every route handler, and then proves the properties of
    the account, order and ticket operations. *)

From Stdlib Require Import ZArith String Ascii List Lia.
From Stdlib Require Import DecimalString DecimalZ DecimalPos.
From stdpp Require Import gmap strings list fin_maps.

#[local] Set Warnings "-register-all".

(** ** JavaScript values and the built-ins the server calls *)

Module JS.

#[local] Open Scope Z_scope.

(** JSON-shaped values.  Numbers are the integral ones (status counts,
    clock readings); an object is a finite map from property names. *)
Inductive value : Type :=
| VUndefined
| VNull
| VBool (b : bool)
| VNum (n : Z)
| VStr (s : string)
| VArr (l : list value)
| VObj (o : gmap string value).

Abbreviation obj := (gmap string value).

(** [o.k]: a property that is not there reads as [undefined]. *)
Definition get (o : obj) (k : string) : value :=
  default VUndefined (o !! k).

(** [!!v] *)
Definition truthy (v : value) : bool :=
  match v with
  | VUndefined | VNull => false
  | VBool b => b
  | VNum n => negb (n =? 0)
  | VStr s => negb (String.eqb s "")
  | VArr _ | VObj _ => true
  end.

(** [a === b].  Primitives compare by value.  Objects and arrays compare
    by reference: a value parsed from the request is never the reference of
    a value held in [db], and the stored values the server compares with
    one another are identifiers, which are strings. *)
Definition strict_eq (a b : value) : bool :=
  match a, b with
  | VUndefined, VUndefined => true
  | VNull, VNull => true
  | VBool x, VBool y => Bool.eqb x y
  | VNum x, VNum y => (x =? y)
  | VStr x, VStr y => String.eqb x y
  | _, _ => false
  end.

(** [String.prototype.includes] *)
Definition str_includes (needle s : string) : bool :=
  match index 0 needle s with Some _ => true | None => false end.

(** [v.includes(arg)]: strings search a substring, arrays an element;
    every other value has no callable [includes], and the call throws a
    TypeError ([None]). *)
Definition method_includes (v arg : value) : option bool :=
  match v with
  | VStr s =>
      match arg with
      | VStr needle => Some (str_includes needle s)
      | _ => None
      end
  | VArr l => Some (existsb (fun x => strict_eq x arg) l)
  | _ => None
  end.

(** [`${n}`] for an integral number: its decimal digits, with a minus
    sign below zero. *)
Definition show_int (n : Z) : string :=
  NilZero.string_of_int (Z.to_int n).

(** [Array.prototype.findIndex]; JavaScript's [-1] is [None]. *)
Fixpoint findIndex {A} (p : A -> bool) (l : list A) : option nat :=
  match l with
  | [] => None
  | x :: l' => if p x then Some O else S <$> findIndex p l'
  end.

(** [Date.prototype.toISOString] on a clock reading in milliseconds
    since the epoch: [YYYY-MM-DDTHH:mm:ss.sssZ], with the signed
    six-digit year outside 0..9999. *)
Definition digit (n : Z) : ascii := ascii_of_nat (48 + Z.to_nat n).

Fixpoint padded (w : nat) (n : Z) : string :=
  match w with
  | O => EmptyString
  | S w' => padded w' (n / 10) +:+ String (digit (n mod 10)) EmptyString
  end.

Definition civil_from_days (days : Z) : Z * Z * Z :=
  let z := days + 719468 in
  let era := z / 146097 in
  let doe := z - era * 146097 in
  let yoe := (doe - doe / 1460 + doe / 36524 - doe / 146096) / 365 in
  let doy := doe - (365 * yoe + yoe / 4 - yoe / 100) in
  let mp := (5 * doy + 2) / 153 in
  let d := doy - (153 * mp + 2) / 5 + 1 in
  let m := if mp <? 10 then mp + 3 else mp - 9 in
  let y := yoe + era * 400 in
  (if m <=? 2 then y + 1 else y, m, d).

Definition show_year (y : Z) : string :=
  if (0 <=? y) && (y <=? 9999) then padded 4 y
  else if y <? 0 then "-" +:+ padded 6 (- y)
  else "+" +:+ padded 6 y.

Definition toISOString (ms : Z) : string :=
  let '(y, m, d) := civil_from_days (ms / 86400000) in
  let t := ms mod 86400000 in
  show_year y +:+ "-" +:+ padded 2 m +:+ "-" +:+ padded 2 d +:+ "T"
    +:+ padded 2 (t / 3600000) +:+ ":" +:+ padded 2 (t / 60000 mod 60)
    +:+ ":" +:+ padded 2 (t / 1000 mod 60) +:+ "." +:+ padded 3 (t mod 1000)
    +:+ "Z".

End JS.

Import JS.

(** ** The server: store, middlewares, handlers, routes *)

Module Server.

(** [const db = { users, orders, supportTickets }] *)
Record db : Type := mkDb {
  users : list obj;
  orders : list obj;
  supportTickets : list obj
}.

(** An object literal: properties are set left to right. *)
Definition extend (o : obj) (props : list (string * value)) : obj :=
  fold_left (fun acc kv => <[kv.1 := kv.2]> acc) props o.

Definition object (props : list (string * value)) : obj := extend ∅ props.

(** The store the process starts with: the default admin account. *)
Definition admin_user : obj :=
  object [ ("id", VStr "U-1670000000000");
           ("name", VStr "Admin");
           ("email", VStr "admin@breakway.com");
           ("password", VStr "admin");
           ("isAdmin", VBool true) ].

Definition db0 : db :=
  {| users := [admin_user]; orders := []; supportTickets := [] |}.

(** What a handler sees of a request: the [x-user-id] header, the parsed
    JSON body, the [:orderId] path parameter, and [req.user], unset until
    [authMiddleware] attaches the resolved account. *)
Record request : Type := mkReq {
  x_user_id : option string;
  body : obj;
  orderId : string;
  user : option obj
}.

(** [res.status(s).json(payload)], or a TypeError escaping the handler. *)
Inductive outcome : Type :=
| Sent (status : nat) (payload : value)
| TypeError.

(** The readings of the system clock while one request is served, in the
    order the handler takes them. *)
Definition clock : Type := nat -> Z.

Inductive mw_result : Type :=
| Next (req : request)
| Stop (o : outcome).

Definition middleware : Type := db -> request -> mw_result.
Definition handler : Type := db -> clock -> request -> db * outcome.

Definition message (s : string) : value := VObj (object [("message", VStr s)]).

Definition dquote : string :=
  String (Ascii false true false false false true false false) EmptyString.

Definition authMiddleware : middleware := fun d req =>
  match x_user_id req with
  | None => Stop (Sent 401 (message "Unauthorized: User ID is required."))
  | Some userId =>
      if String.eqb userId "" then
        Stop (Sent 401 (message "Unauthorized: User ID is required."))
      else
        match find (fun u => strict_eq (get u "id") (VStr userId)) (users d) with
        | None => Stop (Sent 401 (message "Unauthorized: User not found."))
        | Some u =>
            Next {| x_user_id := x_user_id req; body := body req;
                    orderId := orderId req; user := Some u |}
        end
  end.

Definition adminMiddleware : middleware := fun _ req =>
  match user req with
  | None => Stop (Sent 403 (message "Forbidden: Admin access required."))
  | Some u =>
      if truthy (get u "isAdmin") then Next req
      else Stop (Sent 403 (message "Forbidden: Admin access required."))
  end.

(** *** User routes *)

Definition register : handler := fun d clk req =>
  let name := get (body req) "name" in
  let contact := get (body req) "contact" in
  let password := get (body req) "password" in
  if negb (truthy name) || negb (truthy contact) || negb (truthy password) then
    (d, Sent 400 (message "Please fill all fields."))
  else
    match method_includes contact (VStr "@") with
    | None => (d, TypeError)
    | Some isEmail =>
        if existsb (fun u => strict_eq (if isEmail then get u "email" else get u "mobile")
                                       contact) (users d)
        then (d, Sent 409 (message "An account with this mobile/email already exists."))
        else
          let newUser :=
            object [ ("id", VStr ("U-" +:+ show_int (clk O)));
                     ("name", name);
                     ("password", password);
                     ("email", if isEmail then contact else VNull);
                     ("mobile", if negb isEmail then contact else VNull);
                     ("address", VStr "");
                     ("profilePic", VStr "");
                     ("isAdmin", VBool false) ] in
          ({| users := users d ++ [newUser]; orders := orders d;
              supportTickets := supportTickets d |},
           Sent 201 (VObj (object
             [ ("message", VStr "Account created successfully!");
               ("user", VObj (object [ ("id", get newUser "id");
                                       ("name", get newUser "name") ])) ])))
    end.

Definition login : handler := fun d _ req =>
  let contact := get (body req) "contact" in
  let password := get (body req) "password" in
  match find (fun u => (strict_eq (get u "email") contact
                        || strict_eq (get u "mobile") contact)
                       && strict_eq (get u "password") password) (users d) with
  | Some u =>
      (d, Sent 200 (VObj (object
        [ ("message", VStr "Login successful!");
          ("user", VObj (object [ ("id", get u "id");
                                  ("name", get u "name");
                                  ("isAdmin", VBool (truthy (get u "isAdmin"))) ])) ])))
  | None => (d, Sent 401 (message "Incorrect mobile number/email or password."))
  end.

(** The handlers below read [req.user]; every route that uses them puts
    [authMiddleware] first, so the TypeError branch is never reached
    through [serve]. *)
Definition getProfile : handler := fun d _ req =>
  match user req with
  | None => (d, TypeError)
  | Some u => (d, Sent 200 (VObj (delete "password" u)))
  end.

Definition putProfile : handler := fun d _ req =>
  match user req with
  | None => (d, TypeError)
  | Some ru =>
      let name := get (body req) "name" in
      let email := get (body req) "email" in
      let address := get (body req) "address" in
      let profilePic := get (body req) "profilePic" in
      match findIndex (fun u => strict_eq (get u "id") (get ru "id")) (users d) with
      | Some userIndex =>
          let updated :=
            extend (default ∅ (users d !! userIndex))
                   [ ("name", name); ("email", email);
                     ("address", address); ("profilePic", profilePic) ] in
          let d' := {| users := <[userIndex := updated]> (users d);
                       orders := orders d;
                       supportTickets := supportTickets d |} in
          (d', Sent 200 (VObj (object
            [ ("message", VStr "Profile updated successfully!");
              ("user", VObj (default ∅ (users d' !! userIndex))) ])))
      | None => (d, Sent 404 (message "User not found."))
      end
  end.

(** *** Order routes *)

Definition postOrder : handler := fun d clk req =>
  match user req with
  | None => (d, TypeError)
  | Some ru =>
      let orderData :=
        extend (body req) [ ("userId", get ru "id");
                            ("id", VStr ("ORD-" +:+ show_int (clk O)));
                            ("status", VStr "placed") ] in
      ({| users := users d; orders := orders d ++ [orderData];
          supportTickets := supportTickets d |},
       Sent 201 (VObj orderData))
  end.

Definition getOrders : handler := fun d _ req =>
  match user req with
  | None => (d, TypeError)
  | Some ru =>
      let userOrders :=
        List.filter (fun o => strict_eq (get o "userId") (get ru "id")) (orders d) in
      (d, Sent 200 (VArr (VObj <$> userOrders)))
  end.

Definition cancelOrder : handler := fun d _ req =>
  match user req with
  | None => (d, TypeError)
  | Some ru =>
      match findIndex (fun o => strict_eq (get o "id") (VStr (orderId req))
                                && strict_eq (get o "userId") (get ru "id"))
                      (orders d) with
      | Some orderIndex =>
          let o := default ∅ (orders d !! orderIndex) in
          if strict_eq (get o "status") (VStr "placed") then
            let d' := {| users := users d;
                         orders := <[orderIndex := <["status" := VStr "cancelled"]> o]>
                                     (orders d);
                         supportTickets := supportTickets d |} in
            (d', Sent 200 (VObj (default ∅ (orders d' !! orderIndex))))
          else
            (d, Sent 400 (message ("Only orders with " +:+ dquote +:+ "placed"
                                     +:+ dquote +:+ " status can be cancelled.")))
      | None =>
          (d, Sent 404 (message
                 "Order not found or you do not have permission to cancel it."))
      end
  end.

(** *** Admin routes *)

Definition adminStats : handler := fun d _ _ =>
  (d, Sent 200 (VObj (object
     [ ("userCount", VNum (Z.of_nat (length (users d))));
       ("orderCount", VNum (Z.of_nat (length (orders d)))) ]))).

Definition adminUsers : handler := fun d _ _ =>
  (d, Sent 200 (VArr (List.map (fun u => VObj (delete "password" u)) (users d)))).

Definition adminOrders : handler := fun d _ _ =>
  (d, Sent 200 (VArr (VObj <$> orders d))).

(** *** Support ticket routes *)

Definition getTickets : handler := fun d _ req =>
  match user req with
  | None => (d, TypeError)
  | Some ru =>
      let userTickets :=
        List.filter (fun t => strict_eq (get t "userId") (get ru "id"))
                    (supportTickets d) in
      (d, Sent 200 (VArr (VObj <$> userTickets)))
  end.

(** The object literal reads the clock three times, left to right:
    [Date.now()] for the id, [new Date()] for [createdAt], [new Date()]
    for the thread entry. *)
Definition postTicket : handler := fun d clk req =>
  match user req with
  | None => (d, TypeError)
  | Some ru =>
      let message := get (body req) "message" in
      let newTicket :=
        object [ ("id", VStr ("T-" +:+ show_int (clk 0%nat)));
                 ("userId", get ru "id");
                 ("name", get ru "name");
                 ("message", message);
                 ("status", VStr "open");
                 ("createdAt", VStr (toISOString (clk 1%nat)));
                 ("thread", VArr [ VObj (object
                    [ ("from", VStr "customer");
                      ("text", message);
                      ("at", VStr (toISOString (clk 2%nat))) ]) ]) ] in
      ({| users := users d; orders := orders d;
          supportTickets := supportTickets d ++ [newTicket] |},
       Sent 201 (VObj newTicket))
  end.

(** *** Routing *)

Inductive route : Type :=
| PostRegister | PostLogin | GetProfile | PutProfile
| PostOrders | GetOrders | PutOrderCancel
| GetAdminStats | GetAdminUsers | GetAdminOrders
| GetTickets | PostTickets.

(** [app.METHOD(path, ...middlewares, handler)] *)
Definition routes (r : route) : list middleware * handler :=
  match r with
  | PostRegister => ([], register)
  | PostLogin => ([], login)
  | GetProfile => ([authMiddleware], getProfile)
  | PutProfile => ([authMiddleware], putProfile)
  | PostOrders => ([authMiddleware], postOrder)
  | GetOrders => ([authMiddleware], getOrders)
  | PutOrderCancel => ([authMiddleware], cancelOrder)
  | GetAdminStats => ([authMiddleware; adminMiddleware], adminStats)
  | GetAdminUsers => ([authMiddleware; adminMiddleware], adminUsers)
  | GetAdminOrders => ([authMiddleware; adminMiddleware], adminOrders)
  | GetTickets => ([authMiddleware], getTickets)
  | PostTickets => ([authMiddleware], postTicket)
  end.

(** A middleware either answers, which ends the request, or calls
    [next()] with the request it may have extended. *)
Fixpoint run_chain (mws : list middleware) (h : handler)
                   (d : db) (clk : clock) (req : request) : db * outcome :=
  match mws with
  | [] => h d clk req
  | mw :: rest =>
      match mw d req with
      | Stop o => (d, o)
      | Next req' => run_chain rest h d clk req'
      end
  end.

Definition serve (d : db) (clk : clock) (r : route) (req : request) : db * outcome :=
  run_chain (routes r).1 (routes r).2 d clk req.

(** A run of the server: the requests it serves, one after the other. *)
Record event : Type := mkEvent {
  ev_route : route;
  ev_req : request;
  ev_clock : clock
}.

Definition step (d : db) (e : event) : db :=
  (serve d (ev_clock e) (ev_route e) (ev_req e)).1.

Definition run (d : db) (tr : list event) : db := fold_left step tr d.

Definition reachable (d : db) : Prop := exists tr, d = run db0 tr.

End Server.

Import Server.

(** ** Notions the properties are stated with *)

Module Props.

(** The account [authMiddleware] attaches to the request, if it lets the
    request through. *)
Definition resolve (d : db) (req : request) : option obj :=
  match authMiddleware d req with
  | Next req' => user req'
  | Stop _ => None
  end.

(** The request as the handlers behind [authMiddleware] receive it. *)
Definition attach (req : request) (u : obj) : request :=
  {| x_user_id := x_user_id req; body := body req;
     orderId := orderId req; user := Some u |}.

(** [o.userId === u.id] *)
Definition owned_by (u o : obj) : bool :=
  strict_eq (get o "userId") (get u "id").

(** The callback of [cancelOrder]'s [findIndex]. *)
Definition addressed (req : request) (u o : obj) : bool :=
  strict_eq (get o "id") (VStr (orderId req)) && owned_by u o.

(** The [user] property of a JSON answer, when it has one. *)
Definition response_user (o : outcome) : option obj :=
  match o with
  | Sent _ (VObj p) =>
      match p !! "user" with
      | Some (VObj usr) => Some usr
      | _ => None
      end
  | _ => None
  end.


Definition is_register (e : event) : bool :=
  match ev_route e with PostRegister => true | _ => false end.


(** The identifier Register gives at clock reading [t]. *)
Definition user_id_at (t : Z) : value := VStr ("U-" +:+ show_int t).

Definition admin_routes : list route :=
  [GetAdminStats; GetAdminUsers; GetAdminOrders].

Definition cancel_refused : outcome :=
  Sent 400 (message ("Only orders with " +:+ dquote +:+ "placed"
                       +:+ dquote +:+ " status can be cancelled.")).

Definition cancel_not_found : outcome :=
  Sent 404 (message "Order not found or you do not have permission to cancel it.").

(** What holds of every store the server can reach. *)
Record wf_db (d : db) : Prop := mkWf {
  wf_user_id : forall u, u ∈ users d -> exists s, get u "id" = VStr s;
  wf_user_password : forall u, u ∈ users d ->
    exists pw, u !! "password" = Some pw /\ truthy pw = true;
  wf_order_id : forall o, o ∈ orders d -> exists s, get o "id" = VStr s;
  wf_order_owner : forall o, o ∈ orders d -> exists s, get o "userId" = VStr s;
  wf_cancelled_first : forall i j oi oj,
    orders d !! i = Some oi -> orders d !! j = Some oj -> (i < j)%nat ->
    strict_eq (get oj "status") (VStr "placed") = false ->
    ~ (get oi "id" = get oj "id" /\ get oi "userId" = get oj "userId")
}.


(** The ways one request can change the store. *)
Inductive effect (d : db) (e : event) : db -> Prop :=
| eff_none : effect d e d
| eff_register (nu : obj) :
    is_register e = true ->
    get nu "id" = user_id_at (ev_clock e O) ->
    (exists pw, nu !! "password" = Some pw /\ truthy pw = true) ->
    effect d e {| users := users d ++ [nu]; orders := orders d;
                  supportTickets := supportTickets d |}
| eff_profile (i : nat) (u : obj) (b : obj) :
    is_register e = false ->
    users d !! i = Some u ->
    effect d e {| users := <[i := extend u [ ("name", get b "name");
                                             ("email", get b "email");
                                             ("address", get b "address");
                                             ("profilePic", get b "profilePic") ]]>
                             (users d);
                  orders := orders d; supportTickets := supportTickets d |}
| eff_order (u o : obj) :
    is_register e = false ->
    u ∈ users d ->
    get o "userId" = get u "id" ->
    (exists s, get o "id" = VStr s) ->
    get o "status" = VStr "placed" ->
    effect d e {| users := users d; orders := orders d ++ [o];
                  supportTickets := supportTickets d |}
| eff_cancel (req : request) (u : obj) (i : nat) (o : obj) :
    is_register e = false ->
    u ∈ users d ->
    findIndex (addressed req u) (orders d) = Some i ->
    orders d !! i = Some o ->
    effect d e {| users := users d;
                  orders := <[i := <["status" := VStr "cancelled"]> o]> (orders d);
                  supportTickets := supportTickets d |}
| eff_ticket (t : obj) :
    is_register e = false ->
    effect d e {| users := users d; orders := orders d;
                  supportTickets := supportTickets d ++ [t] |}.

End Props.

Import Props.

(** ** Concrete requests and runs *)

Module Scenario.

#[local] Open Scope Z_scope.

Definition anonymous (b : obj) : request :=
  {| x_user_id := None; body := b; orderId := ""; user := None |}.

Definition as_user (uid : string) (b : obj) (oid : string) : request :=
  {| x_user_id := Some uid; body := b; orderId := oid; user := None |}.

Definition at_time (t : Z) : clock := fun _ => t.

Definition alice_body : obj :=
  object [ ("name", VStr "Alice"); ("contact", VStr "a@x.com"); ("password", VStr "p1") ].

Definition bob_body : obj :=
  object [ ("name", VStr "Bob"); ("contact", VStr "5550100"); ("password", VStr "p2") ].

Definition register_alice (t : Z) : event :=
  {| ev_route := PostRegister; ev_req := anonymous alice_body; ev_clock := at_time t |}.

Definition register_bob (t : Z) : event :=
  {| ev_route := PostRegister; ev_req := anonymous bob_body; ev_clock := at_time t |}.

Definition cylinder : obj := object [ ("item", VStr "cylinder") ].

Definition order_as (uid : string) (t : Z) : event :=
  {| ev_route := PostOrders; ev_req := as_user uid cylinder ""; ev_clock := at_time t |}.

Definition cancel_as (uid oid : string) (t : Z) : event :=
  {| ev_route := PutOrderCancel; ev_req := as_user uid ∅ oid; ev_clock := at_time t |}.

(** Alice and Bob register one millisecond apart. *)
Definition two_users : db :=
  run db0 [register_alice 1700000000001; register_bob 1700000000002].

(** Both place an order within the same millisecond. *)
Definition two_orders : db :=
  run two_users [order_as "U-1700000000001" 1700000000007;
                 order_as "U-1700000000002" 1700000000007].

(** Alice places an order and cancels it. *)
Definition alice_cancelled : db :=
  run two_users [order_as "U-1700000000001" 1700000000007;
                 cancel_as "U-1700000000001" "ORD-1700000000007" 1700000000008].

(** A clock that advances by one millisecond at every reading. *)
Definition ticking (t : Z) : clock := fun k => t + Z.of_nat k.

Definition help_body : obj := object [ ("message", VStr "help") ].

Definition rename_body : obj := object [ ("name", VStr "Al") ].

Definition password_only_body : obj := object [ ("password", VStr "admin") ].

Definition null_contact_body : obj :=
  object [ ("contact", VNull); ("password", VStr "p1") ].

Definition bob_record : obj :=
  object [ ("id", VStr "U-1700000000002"); ("name", VStr "Bob");
           ("password", VStr "p2"); ("email", VNull);
           ("mobile", VStr "5550100"); ("address", VStr ""); ("profilePic", VStr "");
           ("isAdmin", VBool false) ].

Definition alice_order (status : string) : obj :=
  extend cylinder [ ("userId", VStr "U-1700000000001");
                    ("id", VStr "ORD-1700000000007");
                    ("status", VStr status) ].

Definition alice_record : obj :=
  object [ ("id", VStr "U-1700000000001"); ("name", VStr "Alice");
           ("password", VStr "p1"); ("email", VStr "a@x.com");
           ("mobile", VNull); ("address", VStr ""); ("profilePic", VStr "");
           ("isAdmin", VBool false) ].

End Scenario.

Import Scenario.

(** ** Notions for the properties of whole runs *)

Module Coverage.

#[global] Instance route_eq_dec : EqDecision route.
Proof. solve_decision. Defined.

(** The routes whose handler never assigns to [db]. *)
Definition read_only_routes : list route :=
  [PostLogin; GetProfile; GetOrders; GetAdminStats; GetAdminUsers;
   GetAdminOrders; GetTickets].

(** The routes whose handler pushes to an array of [db] or assigns into it. *)
Definition updating_routes : list route := [PutProfile; PutOrderCancel].
Definition creating_routes : list route := [PostRegister; PostOrders; PostTickets].

(** The status codes each route's middlewares and handler pass to
    [res.status], 200 where [res.json] is called directly. *)
Definition statuses (r : route) : list nat :=
  match r with
  | PostRegister => [201; 400; 409]
  | PostLogin => [200; 401]
  | GetProfile | PutProfile | GetOrders | GetTickets => [200; 401]
  | PostOrders | PostTickets => [201; 401]
  | PutOrderCancel => [200; 400; 401; 404]
  | GetAdminStats | GetAdminUsers | GetAdminOrders => [200; 401; 403]
  end.

(** The properties Update Profile assigns. *)
Definition profile_fields : list string := ["name"; "email"; "address"; "profilePic"].

(** The properties Create Order stamps over the payload. *)
Definition order_stamps : list string := ["userId"; "id"; "status"].

(** What serving one request can do to the store, with what it writes. *)
Inductive change (d : db) (clk : clock) (req : request) : db -> Prop :=
| ch_none : change d clk req d
| ch_register (nu : obj) :
    get nu "id" = user_id_at (clk O) ->
    get nu "isAdmin" = VBool false ->
    nu !! "password" = Some (get (body req) "password") ->
    change d clk req {| users := users d ++ [nu]; orders := orders d;
                        supportTickets := supportTickets d |}
| ch_profile (i : nat) (u : obj) :
    resolve d req = Some u ->
    users d !! i = Some u ->
    change d clk req
      {| users := <[i := extend u [ ("name", get (body req) "name");
                                    ("email", get (body req) "email");
                                    ("address", get (body req) "address");
                                    ("profilePic", get (body req) "profilePic") ]]>
                    (users d);
         orders := orders d; supportTickets := supportTickets d |}
| ch_order (u : obj) :
    resolve d req = Some u ->
    change d clk req
      {| users := users d;
         orders := orders d ++
           [ extend (body req) [ ("userId", get u "id");
                                 ("id", VStr ("ORD-" +:+ show_int (clk O)));
                                 ("status", VStr "placed") ] ];
         supportTickets := supportTickets d |}
| ch_cancel (u : obj) (i : nat) (o : obj) :
    resolve d req = Some u ->
    findIndex (addressed req u) (orders d) = Some i ->
    orders d !! i = Some o ->
    get o "status" = VStr "placed" ->
    change d clk req
      {| users := users d;
         orders := <[i := <["status" := VStr "cancelled"]> o]> (orders d);
         supportTickets := supportTickets d |}
| ch_ticket (u t e : obj) :
    resolve d req = Some u ->
    get t "userId" = get u "id" ->
    get t "status" = VStr "open" ->
    get t "thread" = VArr [VObj e] ->
    get e "from" = VStr "customer" ->
    get e "text" = get t "message" ->
    change d clk req {| users := users d; orders := orders d;
                        supportTickets := supportTickets d ++ [t] |}.

(** The built-in admin stays first and is the only account whose [isAdmin]
    is set. *)
Definition admin_only_first (d : db) : Prop :=
  exists a rest,
    users d = a :: rest
    /\ get a "id" = VStr "U-1670000000000"
    /\ get a "isAdmin" = VBool true
    /\ forall u, u ∈ rest -> get u "isAdmin" = VBool false.

(** Every order belongs to a stored user, carries a stamped identifier and
    one of the two statuses the handlers write. *)
Definition orders_linked (d : db) : Prop :=
  forall o, o ∈ orders d ->
    (exists u, u ∈ users d /\ get o "userId" = get u "id")
    /\ (exists t, get o "id" = VStr ("ORD-" +:+ show_int t))
    /\ (get o "status" = VStr "placed" \/ get o "status" = VStr "cancelled").

(** Every ticket belongs to a stored user, is open, and has the one
    customer entry that repeats its message. *)
Definition tickets_linked (d : db) : Prop :=
  forall t, t ∈ supportTickets d ->
    (exists u, u ∈ users d /\ get t "userId" = get u "id")
    /\ get t "status" = VStr "open"
    /\ exists e, get t "thread" = VArr [VObj e]
                 /\ get e "from" = VStr "customer"
                 /\ get e "text" = get t "message".

(** A second request of the same caller. *)
Definition same_caller (req req' : request) : Prop :=
  x_user_id req' = x_user_id req.

(** A payload that tries to set the stamped properties itself. *)
Definition forged_order_body : obj :=
  object [ ("item", VStr "cylinder"); ("userId", VStr "U-1670000000000");
           ("id", VStr "ORD-1"); ("status", VStr "delivered") ].

Definition numeric_contact_body : obj :=
  object [ ("name", VStr "Eve"); ("contact", VNum 5550100); ("password", VStr "p3") ].

Definition no_name_body : obj :=
  object [ ("contact", VStr "a@x.com"); ("password", VStr "p1") ].

Definition alice_login_body : obj :=
  object [ ("contact", VStr "a@x.com"); ("password", VStr "p1") ].

Definition full_profile_body : obj :=
  object [ ("name", VStr "Al"); ("email", VStr "al@x.com");
           ("address", VStr "1 Main St"); ("profilePic", VStr "") ].

(** A request as it reaches a route: [req.body] is the object the JSON
    middleware parsed, or [undefined] ([None]) when it parsed nothing and the
    framework sets no default. *)
Record incoming : Type := mkIncoming {
  in_user_id : option string;
  in_body : option obj;
  in_orderId : string
}.

(** The handlers that open with [const { ... } = req.body]. *)
Definition reads_body (r : route) : bool :=
  match r with
  | PostRegister | PostLogin | PutProfile | PostTickets => true
  | _ => false
  end.

(** With no body, [{ ...req.body }] in Create Order spreads nothing. *)
Definition request_of (i : incoming) : request :=
  {| x_user_id := in_user_id i; body := default ∅ (in_body i);
     orderId := in_orderId i; user := None |}.

(** Destructuring [undefined] throws a TypeError, as the handler's first
    statement. *)
Definition destructuring (r : route) (i : incoming) (h : handler) : handler :=
  fun d clk req =>
    match in_body i with
    | None => if reads_body r then (d, TypeError) else h d clk req
    | Some _ => h d clk req
    end.

Definition receive (d : db) (clk : clock) (r : route) (i : incoming) : db * outcome :=
  run_chain (routes r).1 (destructuring r i (routes r).2) d clk (request_of i).

Definition bodiless (uid : option string) : incoming :=
  {| in_user_id := uid; in_body := None; in_orderId := "" |}.

Definition with_body (uid : option string) (b : obj) : incoming :=
  {| in_user_id := uid; in_body := Some b; in_orderId := "" |}.

(** Bob asks for help after the two registrations. *)
Definition bob_asked : db :=
  run two_users [ {| ev_route := PostTickets;
                     ev_req := as_user "U-1700000000002" help_body "";
                     ev_clock := at_time 1700000000020%Z |} ].

End Coverage.

Import Coverage.

(** ** Facts about the JavaScript built-ins *)

Section JsFacts.

Lemma strict_eq_str v s : strict_eq v (VStr s) = true <-> v = VStr s.
Proof.
  destruct v; simpl; try (split; [discriminate | intros H; discriminate H]).
  rewrite String.eqb_eq. split; [intros -> | intros [= ->]]; reflexivity.
Qed.

Lemma strict_eq_str_l v s : strict_eq (VStr s) v = true <-> v = VStr s.
Proof.
  destruct v; simpl; try (split; [discriminate | intros H; discriminate H]).
  rewrite String.eqb_eq. split; [intros -> | intros [= ->]]; reflexivity.
Qed.

Lemma strict_eq_str_false v s : strict_eq v (VStr s) = false <-> v <> VStr s.
Proof.
  rewrite <- strict_eq_str. destruct (strict_eq v (VStr s)); split; congruence.
Qed.

Lemma get_insert o k v : get (<[k := v]> o) k = v.
Proof. unfold get. by rewrite lookup_insert_eq. Qed.

Lemma get_insert_ne o k k' v : k <> k' -> get (<[k := v]> o) k' = get o k'.
Proof. intros H. unfold get. by rewrite lookup_insert_ne. Qed.



Context {A : Type} (p : A -> bool).

Lemma findIndex_Some l i :
  findIndex p l = Some i ->
  exists x, l !! i = Some x /\ p x = true
            /\ forall k y, (k < i)%nat -> l !! k = Some y -> p y = false.
Proof.
  revert i. induction l as [|a l IH]; intros i; simpl; [discriminate|].
  destruct (p a) eqn:Ha.
  - intros [= <-]. exists a. repeat split; auto. intros k y Hk. lia.
  - destruct (findIndex p l) as [n|]; simpl; [|discriminate].
    intros [= <-]. destruct (IH n eq_refl) as (x & Hx & Hpx & Hlt).
    exists x. repeat split; auto.
    intros [|k] y Hk; simpl; [intros [= <-]; exact Ha|].
    apply Hlt. lia.
Qed.

Lemma findIndex_None l :
  findIndex p l = None <-> forall x, x ∈ l -> p x = false.
Proof.
  induction l as [|a l IH]; simpl.
  - split; [intros _ x Hx; inversion Hx | reflexivity].
  - destruct (p a) eqn:Ha.
    + split; [discriminate|]. intros H. specialize (H a (list_elem_of_here _ _)).
      congruence.
    + destruct (findIndex p l) as [n|] eqn:Hf; simpl.
      * split; [discriminate|]. intros H.
        assert (Hn : forall x, x ∈ l -> p x = false)
          by (intros x Hx; apply H; by right).
        apply IH in Hn. discriminate.
      * split; [|reflexivity]. intros _ x Hx.
        apply elem_of_cons in Hx as [-> | Hx]; [exact Ha|].
        by apply IH.
Qed.

Lemma findIndex_is_Some l j y :
  l !! j = Some y -> p y = true ->
  exists i, findIndex p l = Some i /\ (i <= j)%nat.
Proof.
  intros Hj Hy. destruct (findIndex p l) as [i|] eqn:Hf.
  - exists i. split; [reflexivity|].
    destruct (findIndex_Some _ _ Hf) as (x & _ & _ & Hlt).
    destruct (decide (i <= j)%nat) as [|Hn]; [assumption|].
    rewrite (Hlt j y) in Hy by (auto; lia). discriminate.
  - rewrite findIndex_None in Hf.
    rewrite (Hf y) in Hy by (eapply list_elem_of_lookup_2; eauto). discriminate.
Qed.

Lemma find_findIndex l x :
  find p l = Some x -> exists i, findIndex p l = Some i /\ l !! i = Some x.
Proof.
  induction l as [|a l IH]; simpl; [discriminate|].
  destruct (p a).
  - intros [= ->]. by exists O.
  - intros H. destruct (IH H) as (i & -> & Hi). by exists (S i).
Qed.

Lemma find_elem l x : find p l = Some x -> x ∈ l /\ p x = true.
Proof.
  intros H. apply find_some in H as [Hin Hp]. split; [|exact Hp].
  by apply list_elem_of_In.
Qed.

Lemma existsb_elem l : existsb p l = true <-> exists x, x ∈ l /\ p x = true.
Proof.
  rewrite existsb_exists. split; intros (x & Hx & Hp); exists x;
    (split; [by apply list_elem_of_In | exact Hp]).
Qed.

End JsFacts.

(** ** Authentication and the middleware chain *)

Section Auth.

Variables (d : db) (clk : clock) (req : request).

Lemma resolve_Some u :
  resolve d req = Some u ->
  authMiddleware d req = Next (attach req u)
  /\ u ∈ users d
  /\ exists h, x_user_id req = Some h /\ h <> "" /\ get u "id" = VStr h.
Proof.
  unfold resolve, authMiddleware.
  destruct (x_user_id req) as [h|] eqn:Hh; [|discriminate].
  destruct (String.eqb h "") eqn:He; [discriminate|].
  destruct (find _ (users d)) as [v|] eqn:Hf; [|discriminate].
  simpl. intros [= ->]. apply find_elem in Hf as [Hin Hid].
  apply strict_eq_str in Hid.
  split; [unfold attach; by rewrite Hh|]. split; [exact Hin|].
  exists h. repeat split; auto. intros ->. discriminate He.
Qed.

(** A request has no resolvable identity when it carries no identifier, an
    empty one, or one that no stored user has. *)
Lemma resolve_None_iff :
  resolve d req = None <->
  x_user_id req = None \/ x_user_id req = Some ""
  \/ exists h, x_user_id req = Some h
                /\ forall v, v ∈ users d -> get v "id" <> VStr h.
Proof.
  unfold resolve, authMiddleware.
  destruct (x_user_id req) as [h|]; [|split; [by left | done]].
  destruct (String.eqb h "") eqn:He.
  { apply String.eqb_eq in He as ->. split; [by right; left | done]. }
  apply String.eqb_neq in He.
  destruct (find _ (users d)) as [v|] eqn:Hf; simpl.
  - apply find_elem in Hf as [Hin Hid]. apply strict_eq_str in Hid.
    split; [discriminate|]. intros [H | [[= H] | (h' & [= <-] & Hno)]]; try done.
    by destruct (Hno v Hin).
  - split; [|done]. intros _. right; right. exists h. split; [done|].
    intros v Hin. apply strict_eq_str_false.
    apply list_elem_of_In in Hin. by apply (find_none _ _ Hf v).
Qed.

Lemma resolve_None :
  resolve d req = None ->
  authMiddleware d req = Stop (Sent 401 (message "Unauthorized: User ID is required."))
  \/ authMiddleware d req = Stop (Sent 401 (message "Unauthorized: User not found.")).
Proof.
  unfold resolve, authMiddleware.
  destruct (x_user_id req) as [h|]; [|by left].
  destruct (String.eqb h ""); [by left|].
  destruct (find _ (users d)); [discriminate | by right].
Qed.

(** Behind [authMiddleware] alone, a resolved request reaches the handler
    with the account attached. *)
Lemma serve_authenticated r h u :
  routes r = ([authMiddleware], h) ->
  resolve d req = Some u ->
  serve d clk r req = h d clk (attach req u).
Proof.
  intros Hr Hu. unfold serve. rewrite Hr. simpl.
  by destruct (resolve_Some _ Hu) as [-> _].
Qed.

Lemma serve_unauthenticated r :
  r <> PostRegister -> r <> PostLogin ->
  resolve d req = None ->
  exists m, serve d clk r req = (d, Sent 401 (message m)).
Proof.
  intros Hr1 Hr2 Hn. unfold serve.
  destruct (resolve_None Hn) as [E|E]; eexists;
    destruct r; simpl; try congruence; rewrite E; reflexivity.
Qed.

Lemma serve_admin r u :
  r ∈ admin_routes ->
  resolve d req = Some u ->
  serve d clk r req =
    if truthy (get u "isAdmin") then (routes r).2 d clk (attach req u)
    else (d, Sent 403 (message "Forbidden: Admin access required.")).
Proof.
  intros Hr Hu. destruct (resolve_Some _ Hu) as [Ha _].
  unfold admin_routes in Hr. rewrite !elem_of_cons in Hr.
  unfold serve.
  destruct Hr as [-> | [-> | [-> | Hr]]]; [| | | inversion Hr]; simpl;
    rewrite Ha; unfold adminMiddleware; simpl;
    by destruct (truthy (get u "isAdmin")).
Qed.

End Auth.

(** ** Profiles *)

Section Profiles.

Variables (d : db) (clk : clock) (req : request) (u : obj).
Hypothesis Hu : resolve d req = Some u.

Lemma getProfile_spec :
  serve d clk GetProfile req = (d, Sent 200 (VObj (delete "password" u))).
Proof. by rewrite (serve_authenticated d clk req GetProfile getProfile u). Qed.

(** The index [putProfile] finds is one that holds the resolved account. *)
Lemma putProfile_index :
  exists i, findIndex (fun v => strict_eq (get v "id") (get u "id")) (users d) = Some i
            /\ users d !! i = Some u.
Proof.
  unfold resolve, authMiddleware in Hu.
  destruct (x_user_id req) as [h|]; [|discriminate].
  destruct (String.eqb h ""); [discriminate|].
  destruct (find _ (users d)) as [v|] eqn:Hf; [|discriminate].
  simpl in Hu. injection Hu as ->.
  destruct (find_elem _ _ _ Hf) as [_ Hid]. apply strict_eq_str in Hid.
  rewrite Hid. by apply find_findIndex.
Qed.

Lemma putProfile_spec :
  exists i,
    users d !! i = Some u
    /\ let u' := extend u [ ("name", get (body req) "name");
                            ("email", get (body req) "email");
                            ("address", get (body req) "address");
                            ("profilePic", get (body req) "profilePic") ] in
       serve d clk PutProfile req =
         ({| users := <[i := u']> (users d); orders := orders d;
             supportTickets := supportTickets d |},
          Sent 200 (VObj (object [ ("message", VStr "Profile updated successfully!");
                                   ("user", VObj u') ]))).
Proof.
  destruct putProfile_index as (i & Hi & Hiu). exists i. split; [exact Hiu|].
  rewrite (serve_authenticated d clk req PutProfile putProfile u) by done.
  unfold putProfile, attach. cbn [user body]. rewrite Hi. cbn [users]. rewrite Hiu.
  rewrite list_lookup_insert_eq by (by eapply lookup_lt_Some). reflexivity.
Qed.

End Profiles.

Section Objects.

Lemma extend_lookup_other (o : obj) props k :
  k ∉ List.map fst props -> extend o props !! k = o !! k.
Proof.
  unfold extend. revert o. induction props as [|[k' v] props IH]; intros o Hk; [done|].
  simpl in *. rewrite IH by (intros ?; apply Hk; by right).
  apply lookup_insert_ne. intros ->. apply Hk. by left.
Qed.

Lemma delete_password_lookup (o : obj) :
  delete "password" o !! "password" = None
  /\ forall k, k <> "password" -> delete "password" o !! k = o !! k.
Proof.
  split; [apply lookup_delete_eq|]. intros k Hk. by apply lookup_delete_ne.
Qed.

End Objects.

(** C10. Whatever the stored record of the caller, the answer of Get
    Profile is that record without its [password] property and with every
    other property as stored; for an admin caller, Admin List Users answers
    one object per stored user, in order, each without [password] and with
    every other property as stored. *)
Theorem profile_and_user_list_strip_password d clk req u :
  resolve d req = Some u ->
  (exists p, serve d clk GetProfile req = (d, Sent 200 (VObj p))
             /\ p !! "password" = None
             /\ forall k, k <> "password" -> p !! k = u !! k)
  /\ (truthy (get u "isAdmin") = true ->
      exists ps, serve d clk GetAdminUsers req = (d, Sent 200 (VArr (VObj <$> ps)))
                 /\ length ps = length (users d)
                 /\ forall i v, users d !! i = Some v ->
                      exists p, ps !! i = Some p
                                /\ p !! "password" = None
                                /\ forall k, k <> "password" -> p !! k = v !! k).
Proof.
  intros Hu. split.
  - exists (delete "password" u). split; [by apply getProfile_spec|].
    apply delete_password_lookup.
  - intros Hadm. exists (delete "password" <$> users d).
    split; [|split].
    + rewrite (serve_admin d clk req GetAdminUsers u) by (done || set_solver).
      rewrite Hadm. simpl. unfold adminUsers. do 3 f_equal.
      induction (users d) as [|a l IH]; [done|]. simpl. by rewrite IH.
    + by rewrite length_fmap.
    + intros i v Hi. exists (delete "password" v). split.
      * by rewrite list_lookup_fmap, Hi.
      * apply delete_password_lookup.
Qed.

Lemma profile_and_user_list_strip_password_witness :
  (exists p, serve db0 (at_time 0) GetProfile (as_user "U-1670000000000" ∅ "")
               = (db0, Sent 200 (VObj p))
             /\ p !! "password" = None
             /\ forall k, k <> "password" -> p !! k = admin_user !! k)
  /\ (truthy (get admin_user "isAdmin") = true ->
      exists ps, serve db0 (at_time 0) GetAdminUsers (as_user "U-1670000000000" ∅ "")
                   = (db0, Sent 200 (VArr (VObj <$> ps)))
                 /\ length ps = length (users db0)
                 /\ forall i v, users db0 !! i = Some v ->
                      exists p, ps !! i = Some p
                                /\ p !! "password" = None
                                /\ forall k, k <> "password" -> p !! k = v !! k).
Proof.
  apply (profile_and_user_list_strip_password db0 (at_time 0)
           (as_user "U-1670000000000" ∅ "") admin_user).
  vm_compute. reflexivity.
Defined.

(** C4. Update Profile by a resolved caller rewrites the caller's record in
    place: [name], [email], [address] and [profilePic] become what the
    request body holds under those names ([undefined] for a name the body
    omits), every other property of the record keeps its value, and no other
    record, order or ticket changes. *)
Theorem update_profile_overwrites_four_fields d clk req u :
  resolve d req = Some u ->
  exists i u',
    users d !! i = Some u
    /\ (serve d clk PutProfile req).1 =
         {| users := <[i := u']> (users d); orders := orders d;
            supportTickets := supportTickets d |}
    /\ (exists payload, (serve d clk PutProfile req).2 = Sent 200 payload)
    /\ u' !! "name" = Some (get (body req) "name")
    /\ u' !! "email" = Some (get (body req) "email")
    /\ u' !! "address" = Some (get (body req) "address")
    /\ u' !! "profilePic" = Some (get (body req) "profilePic")
    /\ (forall k, k ∉ ["name"; "email"; "address"; "profilePic"] -> u' !! k = u !! k)
    /\ (forall k, body req !! k = None -> get (body req) k = VUndefined).
Proof.
  intros Hu. destruct (putProfile_spec d clk req u Hu) as (i & Hi & Hs).
  cbv zeta in Hs. exists i. eexists. split; [exact Hi|]. rewrite Hs. simpl.
  split; [reflexivity|]. split; [by eexists|].
  unfold extend; simpl.
  repeat split; try by simplify_map_eq.
  - intros k Hk. apply (extend_lookup_other u
      [ ("name", get (body req) "name"); ("email", get (body req) "email");
        ("address", get (body req) "address");
        ("profilePic", get (body req) "profilePic") ] k). exact Hk.
  - intros k Hk. unfold get. by rewrite Hk.
Qed.

Lemma update_profile_overwrites_four_fields_witness :
  exists i u',
    users two_users !! i = Some alice_record
    /\ (serve two_users (at_time 9) PutProfile
          (as_user "U-1700000000001" rename_body "")).1 =
         {| users := <[i := u']> (users two_users); orders := orders two_users;
            supportTickets := supportTickets two_users |}
    /\ (exists payload, (serve two_users (at_time 9) PutProfile
          (as_user "U-1700000000001" rename_body "")).2 = Sent 200 payload)
    /\ u' !! "name" = Some (get rename_body "name")
    /\ u' !! "email" = Some (get rename_body "email")
    /\ u' !! "address" = Some (get rename_body "address")
    /\ u' !! "profilePic" = Some (get rename_body "profilePic")
    /\ (forall k, k ∉ ["name"; "email"; "address"; "profilePic"] ->
          u' !! k = alice_record !! k)
    /\ (forall k, rename_body !! k = None -> get rename_body k = VUndefined).
Proof.
  apply (update_profile_overwrites_four_fields two_users (at_time 9)
           (as_user "U-1700000000001" rename_body "") alice_record).
  vm_compute. reflexivity.
Defined.

(** ** Registration and login *)

Section Accounts.

Variables (d : db) (clk : clock) (req : request).

Lemma response_user_message st m : response_user (Sent st (message m)) = None.
Proof. reflexivity. Qed.

(** The record Register stores for a string contact [c]. *)
Lemma register_spec c :
  truthy (get (body req) "name") = true ->
  truthy (get (body req) "password") = true ->
  get (body req) "contact" = VStr c -> c <> "" ->
  serve d clk PostRegister req =
    let isEmail := str_includes "@" c in
    if existsb (fun u => strict_eq (get u (if isEmail then "email" else "mobile")) (VStr c))
               (users d)
    then (d, Sent 409 (message "An account with this mobile/email already exists."))
    else
      ({| users := users d ++
            [ object [ ("id", VStr ("U-" +:+ show_int (clk O)));
                       ("name", get (body req) "name");
                       ("password", get (body req) "password");
                       ("email", if isEmail then VStr c else VNull);
                       ("mobile", if isEmail then VNull else VStr c);
                       ("address", VStr "");
                       ("profilePic", VStr "");
                       ("isAdmin", VBool false) ] ];
          orders := orders d; supportTickets := supportTickets d |},
       Sent 201 (VObj (object
         [ ("message", VStr "Account created successfully!");
           ("user", VObj (object [ ("id", VStr ("U-" +:+ show_int (clk O)));
                                   ("name", get (body req) "name") ])) ]))).
Proof.
  intros Hn Hp Hc Hne. unfold serve. simpl. unfold register.
  rewrite Hn, Hp, Hc. simpl truthy.
  assert (Hc' : String.eqb c "" = false) by (by apply String.eqb_neq).
  rewrite Hc'. simpl. cbv zeta.
  destruct (str_includes "@" c); simpl;
    match goal with |- context [existsb ?f ?l] => destruct (existsb f l) end;
    reflexivity.
Qed.

Lemma register_never_returns_password usr :
  response_user (serve d clk PostRegister req).2 = Some usr ->
  usr !! "password" = None.
Proof.
  unfold serve. simpl. unfold register.
  destruct (_ || _); [discriminate|].
  destruct (method_includes _ _) as [isEmail|]; [|discriminate].
  destruct (existsb _ _); [discriminate|].
  simpl. intros [= <-]. reflexivity.
Qed.

Lemma login_never_returns_password usr :
  response_user (serve d clk PostLogin req).2 = Some usr ->
  usr !! "password" = None.
Proof.
  unfold serve. simpl. unfold login.
  destruct (find _ _); [|discriminate].
  simpl. intros [= <-]. reflexivity.
Qed.

(** With a string contact and a string password, Login answers 200 for
    the first stored user that matches, and 401 when none does. *)
Lemma login_string_credentials c pw :
  get (body req) "contact" = VStr c ->
  get (body req) "password" = VStr pw ->
  let matches (u : obj) :=
    (get u "email" = VStr c \/ get u "mobile" = VStr c)
    /\ get u "password" = VStr pw in
  ((exists u, u ∈ users d /\ matches u) ->
     exists u, u ∈ users d /\ matches u
       /\ serve d clk PostLogin req =
            (d, Sent 200 (VObj (object
               [ ("message", VStr "Login successful!");
                 ("user", VObj (object
                    [ ("id", get u "id"); ("name", get u "name");
                      ("isAdmin", VBool (truthy (get u "isAdmin"))) ])) ]))))
  /\ (~ (exists u, u ∈ users d /\ matches u) ->
      serve d clk PostLogin req =
        (d, Sent 401 (message "Incorrect mobile number/email or password."))).
Proof.
  intros Hc Hp matches.
  assert (Hm : forall u,
    ((strict_eq (get u "email") (VStr c) || strict_eq (get u "mobile") (VStr c))
     && strict_eq (get u "password") (VStr pw)) = true <-> matches u).
  { intros u. unfold matches.
    rewrite andb_true_iff, orb_true_iff, !strict_eq_str. tauto. }
  unfold serve. simpl. unfold login. rewrite Hc, Hp.
  destruct (find _ (users d)) as [u|] eqn:Hf.
  - apply find_elem in Hf as [Hin Hu]. apply Hm in Hu. split.
    + intros _. by exists u.
    + intros Hno. exfalso. apply Hno. by exists u.
  - split; [|reflexivity].
    intros (u & Hin & Hu). apply Hm in Hu.
    apply list_elem_of_In in Hin.
    rewrite (find_none _ _ Hf u Hin) in Hu. discriminate.
Qed.

End Accounts.





(** C1 (the code departs from it). A Login request that carries no contact
    at all is answered 200 with the built-in admin's identity as soon as the
    password is the admin's: the admin record has no [mobile] property, and
    the handler compares the absent contact with it.  Likewise a [null]
    contact matches the [null] field of a registered account. *)
Theorem login_without_contact_succeeds :
  serve db0 (at_time 0) PostLogin (anonymous password_only_body) =
    (db0, Sent 200 (VObj (object
       [ ("message", VStr "Login successful!");
         ("user", VObj (object [ ("id", VStr "U-1670000000000");
                                 ("name", VStr "Admin");
                                 ("isAdmin", VBool true) ])) ])))
  /\ serve two_users (at_time 0) PostLogin (anonymous null_contact_body) =
    (two_users, Sent 200 (VObj (object
       [ ("message", VStr "Login successful!");
         ("user", VObj (object [ ("id", VStr "U-1700000000001");
                                 ("name", VStr "Alice");
                                 ("isAdmin", VBool false) ])) ]))).
Proof. split; vm_compute; reflexivity. Qed.

(** ** Orders *)

Section Orders.

Variables (d : db) (clk : clock) (req : request) (u : obj).
Hypothesis Hu : resolve d req = Some u.

Lemma getOrders_spec :
  serve d clk GetOrders req =
    (d, Sent 200 (VArr (VObj <$> List.filter (owned_by u) (orders d)))).
Proof. by rewrite (serve_authenticated d clk req GetOrders getOrders u). Qed.

Lemma cancel_found i o :
  findIndex (addressed req u) (orders d) = Some i ->
  orders d !! i = Some o ->
  serve d clk PutOrderCancel req =
    if strict_eq (get o "status") (VStr "placed") then
      ({| users := users d;
          orders := <[i := <["status" := VStr "cancelled"]> o]> (orders d);
          supportTickets := supportTickets d |},
       Sent 200 (VObj (<["status" := VStr "cancelled"]> o)))
    else (d, cancel_refused).
Proof.
  intros Hi Hio.
  rewrite (serve_authenticated d clk req PutOrderCancel cancelOrder u) by done.
  unfold cancelOrder, attach. cbn [user orderId].
  change (findIndex _ (orders d)) with (findIndex (addressed req u) (orders d)).
  rewrite Hi, Hio. simpl default.
  destruct (strict_eq (get o "status") (VStr "placed")); [|reflexivity].
  cbn [orders]. rewrite list_lookup_insert_eq by (by eapply lookup_lt_Some).
  reflexivity.
Qed.

Lemma cancel_missing :
  findIndex (addressed req u) (orders d) = None ->
  serve d clk PutOrderCancel req = (d, cancel_not_found).
Proof.
  intros Hi.
  rewrite (serve_authenticated d clk req PutOrderCancel cancelOrder u) by done.
  unfold cancelOrder, attach. cbn [user orderId].
  change (findIndex _ (orders d)) with (findIndex (addressed req u) (orders d)).
  by rewrite Hi.
Qed.

End Orders.

Section Lists.

Context {A : Type} (p : A -> bool).

Lemma filter_bool_sublist (l : list A) : List.filter p l `sublist_of` l.
Proof.
  induction l as [|a l IH]; simpl; [constructor|].
  destruct (p a); by constructor.
Qed.

Lemma filter_bool_elem (l : list A) x : x ∈ List.filter p l <-> x ∈ l /\ p x = true.
Proof. rewrite !list_elem_of_In. apply filter_In. Qed.

Lemma findIndex_insert_same (l : list A) i x y :
  l !! i = Some x -> p y = p x ->
  findIndex p (<[i := y]> l) = findIndex p l.
Proof.
  revert i. induction l as [|a l IH]; intros [|i] Hi Hp; simpl in *; try done.
  - injection Hi as ->. by rewrite Hp.
  - by rewrite (IH i Hi Hp).
Qed.

End Lists.

(** C7 (as amended). For a resolved caller, List Orders answers exactly the
    stored orders whose [userId] is the caller's identifier, in the order
    they were stored.  Cancel Order with an identifier under which the
    caller owns no order (so, the identifier of an order that only another
    user owns) answers 404 and changes nothing.  In every case Cancel Order
    leaves each order of another user as it was, and an order it answers
    with is one of the caller's. *)
Theorem orders_of_other_users_untouched d clk req u :
  resolve d req = Some u ->
  serve d clk GetOrders req =
    (d, Sent 200 (VArr (VObj <$> List.filter (owned_by u) (orders d))))
  /\ (forall o, o ∈ List.filter (owned_by u) (orders d)
                <-> o ∈ orders d /\ owned_by u o = true)
  /\ List.filter (owned_by u) (orders d) `sublist_of` orders d
  /\ ((forall o, o ∈ orders d ->
         strict_eq (get o "id") (VStr (orderId req)) = true -> owned_by u o = false) ->
      serve d clk PutOrderCancel req = (d, cancel_not_found))
  /\ (let d' := (serve d clk PutOrderCancel req).1 in
      users d' = users d /\ supportTickets d' = supportTickets d
      /\ length (orders d') = length (orders d)
      /\ forall j o, orders d !! j = Some o -> owned_by u o = false ->
                     orders d' !! j = Some o)
  /\ (forall p, (serve d clk PutOrderCancel req).2 = Sent 200 p ->
        exists o', p = VObj o' /\ owned_by u o' = true
                   /\ get o' "id" = VStr (orderId req)).
Proof.
  intros Hu. split; [by apply getOrders_spec|].
  split; [intros o; apply filter_bool_elem|].
  split; [apply filter_bool_sublist|].
  split.
  { intros Hnone. apply (cancel_missing d clk req u Hu).
    apply findIndex_None. intros o Ho. unfold addressed.
    destruct (strict_eq (get o "id") (VStr (orderId req))) eqn:Hid; [|done].
    simpl. by apply Hnone. }
  destruct (findIndex (addressed req u) (orders d)) as [i|] eqn:Hi.
  - destruct (findIndex_Some _ _ _ Hi) as (o & Hio & Hp & _).
    rewrite (cancel_found d clk req u Hu i o Hi Hio).
    assert (Hown : owned_by u o = true /\ get o "id" = VStr (orderId req)).
    { unfold addressed in Hp. apply andb_true_iff in Hp as [Hid Hown].
      split; [exact Hown | by apply strict_eq_str]. }
    destruct (strict_eq (get o "status") (VStr "placed")); simpl.
    + split.
      * repeat split; [by rewrite length_insert|].
        intros j o2 Hj Hno. destruct (decide (i = j)) as [->|Hne].
        -- rewrite Hio in Hj. injection Hj as ->.
           destruct Hown as [Hown _]. congruence.
        -- by rewrite list_lookup_insert_ne.
      * intros p [= <-]. eexists. split; [reflexivity|].
        unfold owned_by. rewrite !get_insert_ne by done. exact Hown.
    + split; [done|]. intros p. unfold cancel_refused. intros [=].
  - rewrite (cancel_missing d clk req u Hu Hi). simpl.
    split; [done|]. intros p. unfold cancel_not_found. intros [=].
Qed.

Lemma orders_of_other_users_untouched_witness :
  let req := as_user "U-1700000000002" ∅ "ORD-1700000000007" in
  let d := alice_cancelled in
  serve d (at_time 9) GetOrders req =
    (d, Sent 200 (VArr (VObj <$> List.filter (owned_by bob_record) (orders d))))
  /\ (forall o, o ∈ List.filter (owned_by bob_record) (orders d)
                <-> o ∈ orders d /\ owned_by bob_record o = true)
  /\ List.filter (owned_by bob_record) (orders d) `sublist_of` orders d
  /\ ((forall o, o ∈ orders d ->
         strict_eq (get o "id") (VStr (orderId req)) = true ->
         owned_by bob_record o = false) ->
      serve d (at_time 9) PutOrderCancel req = (d, cancel_not_found))
  /\ (let d' := (serve d (at_time 9) PutOrderCancel req).1 in
      users d' = users d /\ supportTickets d' = supportTickets d
      /\ length (orders d') = length (orders d)
      /\ forall j o, orders d !! j = Some o -> owned_by bob_record o = false ->
                     orders d' !! j = Some o)
  /\ (forall p, (serve d (at_time 9) PutOrderCancel req).2 = Sent 200 p ->
        exists o', p = VObj o' /\ owned_by bob_record o' = true
                   /\ get o' "id" = VStr (orderId req)).
Proof.
  apply (orders_of_other_users_untouched alice_cancelled (at_time 9)
           (as_user "U-1700000000002" ∅ "ORD-1700000000007") bob_record).
  vm_compute. reflexivity.
Defined.

(** C7 as stated fails: when Alice and Bob each place an order within the
    same millisecond the two orders carry the same identifier, and Bob's
    Cancel Order with that identifier, which is also the identifier of
    Alice's order, answers 200 and cancels his own order. *)
Lemma cancel_with_identifier_of_foreign_order :
  let req := as_user "U-1700000000002" ∅ "ORD-1700000000007" in
  resolve two_orders req = Some bob_record
  /\ orders two_orders !! 0%nat = Some (alice_order "placed")
  /\ get (alice_order "placed") "id" = VStr (orderId req)
  /\ owned_by bob_record (alice_order "placed") = false
  /\ (exists o', (serve two_orders (at_time 9) PutOrderCancel req).2 = Sent 200 (VObj o')
                 /\ get o' "status" = VStr "cancelled")
  /\ (serve two_orders (at_time 9) PutOrderCancel req).2 <> cancel_not_found
  /\ orders (serve two_orders (at_time 9) PutOrderCancel req).1 <> orders two_orders.
Proof.
  cbv zeta. split; [vm_compute; reflexivity|].
  split; [vm_compute; reflexivity|].
  split; [vm_compute; reflexivity|].
  split; [vm_compute; reflexivity|].
  split; [eexists; split; vm_compute; reflexivity|].
  split; [vm_compute; discriminate|].
  vm_compute. discriminate.
Qed.

(** ** Admin routes *)



(** ** Support tickets *)

Section Tickets.

Variables (d : db) (clk : clock) (req : request) (u : obj).
Hypothesis Hu : resolve d req = Some u.

(** The ticket Submit Support Ticket stores and answers with: one thread
    entry, from the customer, carrying the submitted message; [createdAt]
    is the second clock reading of the request and the entry's [at] the
    third. *)
Lemma postTicket_spec :
  exists t e,
    serve d clk PostTickets req =
      ({| users := users d; orders := orders d;
          supportTickets := supportTickets d ++ [t] |}, Sent 201 (VObj t))
    /\ get t "thread" = VArr [VObj e]
    /\ get e "from" = VStr "customer"
    /\ get e "text" = get (body req) "message"
    /\ get e "at" = VStr (toISOString (clk 2%nat))
    /\ get t "createdAt" = VStr (toISOString (clk 1%nat))
    /\ get t "status" = VStr "open"
    /\ get t "userId" = get u "id".
Proof.
  rewrite (serve_authenticated d clk req PostTickets postTicket u) by done.
  unfold postTicket, attach. cbn [user body].
  do 2 eexists. split; [reflexivity|]. repeat split.
Qed.

End Tickets.

(** C3 (the code departs from it). The handler reads the clock once for
    [createdAt] and again for the thread entry: when the millisecond changes
    between the two readings the entry's timestamp is not the ticket's
    creation timestamp.  The thread still has the one customer entry with
    the submitted text. *)
Theorem ticket_entry_timestamp_is_a_later_reading :
  exists t e,
    (serve two_users (ticking 1700000000998) PostTickets
       (as_user "U-1700000000001" help_body "")).2 = Sent 201 (VObj t)
    /\ get t "thread" = VArr [VObj e]
    /\ get e "from" = VStr "customer"
    /\ get e "text" = VStr "help"
    /\ get t "createdAt" = VStr "2023-11-14T22:13:20.999Z"
    /\ get e "at" = VStr "2023-11-14T22:13:21.000Z".
Proof. do 2 eexists. repeat split; vm_compute; reflexivity. Qed.

(** ** Every store the server reaches is well formed *)

Section Reachability.

Lemma postOrder_spec d clk req u :
  resolve d req = Some u ->
  serve d clk PostOrders req =
    let orderData := extend (body req) [ ("userId", get u "id");
                                         ("id", VStr ("ORD-" +:+ show_int (clk O)));
                                         ("status", VStr "placed") ] in
    ({| users := users d; orders := orders d ++ [orderData];
        supportTickets := supportTickets d |}, Sent 201 (VObj orderData)).
Proof.
  intros Hu. by rewrite (serve_authenticated d clk req PostOrders postOrder u).
Qed.

Lemma step_effect d e : effect d e (step d e).
Proof.
  destruct e as [r req clk]. unfold step. cbn [ev_route ev_req ev_clock].
  destruct r;
    try (destruct (resolve d req) as [u|] eqn:Hu;
         [| match goal with |- context [serve d clk ?r req] =>
              destruct (serve_unauthenticated d clk req r) as [m ->];
                [discriminate | discriminate | exact Hu | apply eff_none]
            end]).
  - unfold serve; simpl. unfold register.
    destruct (_ || _) eqn:Hv; [apply eff_none|].
    destruct (method_includes _ _) as [isEmail|]; [|apply eff_none].
    destruct (existsb _ _); [apply eff_none|].
    simpl. apply eff_register; [reflexivity | reflexivity |].
    exists (get (body req) "password"). split; [reflexivity|].
    apply orb_false_iff in Hv as [_ Hv]. by apply negb_false_iff.
  - unfold serve; simpl. unfold login. destruct (find _ _); apply eff_none.
  - rewrite (getProfile_spec d clk req u Hu). apply eff_none.
  - destruct (putProfile_spec d clk req u Hu) as (i & Hi & ->).
    simpl. by apply eff_profile.
  - rewrite (postOrder_spec d clk req u Hu). simpl.
    destruct (resolve_Some d req u Hu) as (_ & Hin & _).
    apply (eff_order _ _ u); [done | done | | eexists |];
      unfold extend; simpl;
      repeat first [rewrite get_insert | rewrite get_insert_ne by done]; reflexivity.
  - rewrite (getOrders_spec d clk req u Hu). apply eff_none.
  - destruct (resolve_Some d req u Hu) as (_ & Hin & _).
    destruct (findIndex (addressed req u) (orders d)) as [i|] eqn:Hi.
    + destruct (findIndex_Some _ _ _ Hi) as (o & Hio & _).
      rewrite (cancel_found d clk req u Hu i o Hi Hio).
      destruct (strict_eq _ _); simpl; [|apply eff_none].
      by apply (eff_cancel _ _ req u).
    + rewrite (cancel_missing d clk req u Hu Hi). apply eff_none.
  - rewrite (serve_admin d clk req GetAdminStats u) by (done || set_solver).
    destruct (truthy _); apply eff_none.
  - rewrite (serve_admin d clk req GetAdminUsers u) by (done || set_solver).
    destruct (truthy _); apply eff_none.
  - rewrite (serve_admin d clk req GetAdminOrders u) by (done || set_solver).
    destruct (truthy _); apply eff_none.
  - rewrite (serve_authenticated d clk req GetTickets getTickets u) by done.
    apply eff_none.
  - destruct (postTicket_spec d clk req u Hu) as (t & e & -> & _).
    simpl. by apply eff_ticket.
Qed.

Lemma elem_of_insert_inv {A} (l : list A) i x y :
  x ∈ <[i := y]> l -> x = y \/ x ∈ l.
Proof.
  intros Hx. apply list_elem_of_lookup in Hx as [j Hj].
  destruct (decide (i = j)) as [->|Hne].
  - destruct (decide (j < length l)%nat) as [Hlt|Hge].
    + rewrite list_lookup_insert_eq in Hj by done. left. congruence.
    + rewrite list_insert_ge in Hj by lia. right.
      eapply list_elem_of_lookup_2; eauto.
  - rewrite list_lookup_insert_ne in Hj by done. right.
    eapply list_elem_of_lookup_2; eauto.
Qed.

Lemma get_extend_profile (u b : obj) k :
  k ∉ ["name"; "email"; "address"; "profilePic"] ->
  extend u [ ("name", get b "name"); ("email", get b "email");
             ("address", get b "address"); ("profilePic", get b "profilePic") ] !! k
  = u !! k.
Proof. intros Hk. by apply extend_lookup_other. Qed.

Lemma get_extend_profile_other (u b : obj) k :
  k ∉ ["name"; "email"; "address"; "profilePic"] ->
  get (extend u [ ("name", get b "name"); ("email", get b "email");
                  ("address", get b "address");
                  ("profilePic", get b "profilePic") ]) k
  = get u k.
Proof.
  intros Hk.
  change (default VUndefined
            (extend u [ ("name", get b "name"); ("email", get b "email");
                        ("address", get b "address");
                        ("profilePic", get b "profilePic") ] !! k)
          = default VUndefined (u !! k)).
  by rewrite get_extend_profile.
Qed.

Lemma id_not_profile_field : "id" ∉ ["name"; "email"; "address"; "profilePic"].
Proof. apply (bool_decide_unpack _). by vm_compute. Qed.

Lemma password_not_profile_field :
  "password" ∉ ["name"; "email"; "address"; "profilePic"].
Proof. apply (bool_decide_unpack _). by vm_compute. Qed.

Lemma wf_db0 : wf_db db0.
Proof.
  split; simpl.
  - intros u Hu. apply list_elem_of_singleton in Hu as ->. by eexists.
  - intros u Hu. apply list_elem_of_singleton in Hu as ->. by eexists.
  - intros o Ho. inversion Ho.
  - intros o Ho. inversion Ho.
  - intros i j oi oj Hi. by rewrite lookup_nil in Hi.
Qed.

Lemma wf_effect d e d' : wf_db d -> effect d e d' -> wf_db d'.
Proof.
  intros [Hid Hpw Hoid Hown Hfirst] Heff.
  destruct Heff as [ | nu _ Hnid Hnpw | i u b _ Hiu | u o _ Hin Ho Hoid' Hst
                   | req u i o _ Hin Hi Hio | t _ ];
    [by split | | | | | by split].
  - split; cbn [users orders supportTickets]; try done.
    + intros v Hv. apply elem_of_app in Hv as [Hv|Hv]; [by apply Hid|].
      apply list_elem_of_singleton in Hv as ->. by eexists.
    + intros v Hv. apply elem_of_app in Hv as [Hv|Hv]; [by apply Hpw|].
      by apply list_elem_of_singleton in Hv as ->.
  - assert (Hu : u ∈ users d) by (eapply list_elem_of_lookup_2; eauto).
    split; cbn [users orders supportTickets]; try done.
    + intros v Hv. apply elem_of_insert_inv in Hv as [-> | Hv]; [|by apply Hid].
      rewrite get_extend_profile_other by apply id_not_profile_field.
      by apply Hid.
    + intros v Hv. apply elem_of_insert_inv in Hv as [-> | Hv]; [|by apply Hpw].
      rewrite get_extend_profile by apply password_not_profile_field.
      by apply Hpw.
  - split; cbn [users orders supportTickets]; try done.
    + intros v Hv. apply elem_of_app in Hv as [Hv|Hv]; [by apply Hoid|].
      by apply list_elem_of_singleton in Hv as ->.
    + intros v Hv. apply elem_of_app in Hv as [Hv|Hv]; [by apply Hown|].
      apply list_elem_of_singleton in Hv as ->. rewrite Ho. by apply Hid.
    + intros a b oa ob Ha Hb Hlt Hnp.
      apply lookup_snoc_Some in Hb as [[Hb1 Hb2] | [-> <-]].
      * apply lookup_snoc_Some in Ha as [[Ha1 Ha2] | [-> _]]; [|lia].
        by apply (Hfirst a b).
      * rewrite Hst in Hnp. discriminate.
  - destruct (findIndex_Some _ _ _ Hi) as (o0 & Hio0 & Hp & Hbefore).
    rewrite Hio in Hio0. injection Hio0 as <-.
    assert (Hlen : (i < length (orders d))%nat) by (by eapply lookup_lt_Some).
    assert (Ho : o ∈ orders d) by (eapply list_elem_of_lookup_2; eauto).
    set (o' := <["status" := VStr "cancelled"]> o).
    assert (Hsame : get o' "id" = get o "id" /\ get o' "userId" = get o "userId").
    { unfold o'. by rewrite !get_insert_ne. }
    destruct Hsame as [Hsid Hsown].
    split; cbn [users orders supportTickets]; try done.
    + intros v Hv. apply elem_of_insert_inv in Hv as [-> | Hv]; [|by apply Hoid].
      rewrite Hsid. by apply Hoid.
    + intros v Hv. apply elem_of_insert_inv in Hv as [-> | Hv]; [|by apply Hown].
      rewrite Hsown. by apply Hown.
    + intros a b oa ob Ha Hb Hlt Hnp [Eid Eown].
      destruct (decide (b = i)) as [->|Hbi].
      * rewrite list_lookup_insert_eq in Hb by done. injection Hb as <-.
        rewrite list_lookup_insert_ne in Ha by lia.
        assert (Hpa : addressed req u oa = false) by (by apply (Hbefore a)).
        rewrite Hsid in Eid. rewrite Hsown in Eown.
        unfold addressed, owned_by in Hp, Hpa.
        rewrite Eid, Eown, Hp in Hpa. discriminate.
      * rewrite list_lookup_insert_ne in Hb by done.
        destruct (decide (a = i)) as [->|Hai].
        -- rewrite list_lookup_insert_eq in Ha by done. injection Ha as <-.
           rewrite Hsid in Eid. rewrite Hsown in Eown.
           by apply (Hfirst i b o ob).
        -- rewrite list_lookup_insert_ne in Ha by done.
           by apply (Hfirst a b oa ob).
Qed.

Lemma wf_run tr : forall d, wf_db d -> wf_db (run d tr).
Proof.
  induction tr as [|e tr IH]; intros d Hd; [exact Hd|].
  simpl. apply IH. eapply wf_effect; [exact Hd | apply step_effect].
Qed.

Lemma wf_reachable d : reachable d -> wf_db d.
Proof. intros [tr ->]. apply wf_run, wf_db0. Qed.

Lemma reachable_step d e : reachable d -> reachable (step d e).
Proof.
  intros [tr ->]. exists (tr ++ [e]). unfold run. by rewrite fold_left_app.
Qed.

End Reachability.

(** ** Cancelling an order *)

Section Cancel.

Variables (d : db) (clk : clock) (req : request) (u : obj).
Hypothesis Hu : resolve d req = Some u.

Lemma resolve_same_users d' : users d' = users d -> resolve d' req = Some u.
Proof. intros E. unfold resolve, authMiddleware in *. by rewrite E. Qed.

Lemma addressed_keys o1 o2 :
  addressed req u o1 = true -> addressed req u o2 = true ->
  get o1 "id" = get o2 "id" /\ get o1 "userId" = get o2 "userId".
Proof.
  destruct (resolve_Some d req u Hu) as (_ & _ & h & _ & _ & Hid).
  unfold addressed, owned_by. rewrite Hid, !andb_true_iff, !strict_eq_str.
  intros [-> ->] [-> ->]. done.
Qed.

Lemma addressed_cancelled o :
  addressed req u (<["status" := VStr "cancelled"]> o) = addressed req u o.
Proof. unfold addressed, owned_by. by rewrite !get_insert_ne. Qed.

(** Once the addressed order is cancelled, cancelling again is refused. *)
Lemma cancel_twice i o clk' :
  findIndex (addressed req u) (orders d) = Some i ->
  orders d !! i = Some o ->
  let d' := {| users := users d;
               orders := <[i := <["status" := VStr "cancelled"]> o]> (orders d);
               supportTickets := supportTickets d |} in
  serve d' clk' PutOrderCancel req = (d', cancel_refused).
Proof.
  intros Hi Hio d'.
  assert (Hu' : resolve d' req = Some u) by (by apply resolve_same_users).
  rewrite (cancel_found d' clk' req u Hu' i (<["status" := VStr "cancelled"]> o)).
  - by rewrite get_insert.
  - unfold d'. cbn [orders].
    rewrite (findIndex_insert_same _ _ i o); [exact Hi | exact Hio |].
    apply addressed_cancelled.
  - unfold d'. cbn [orders]. apply list_lookup_insert_eq.
    by eapply lookup_lt_Some.
Qed.

End Cancel.

(** C6. In every store the server reaches, for a resolved caller: when an
    order the caller owns, with the requested identifier, has a status other
    than [placed], Cancel Order answers 400 and leaves the whole store as it
    was.  When Cancel Order does change the store, it changes one order that
    had status [placed], only its status, to [cancelled], and a further
    Cancel Order with the same identifier is answered 400 and changes
    nothing. *)
Theorem cancel_order_only_from_placed d clk req u :
  reachable d ->
  resolve d req = Some u ->
  (forall o, o ∈ orders d -> addressed req u o = true ->
             strict_eq (get o "status") (VStr "placed") = false ->
             serve d clk PutOrderCancel req = (d, cancel_refused))
  /\ ((serve d clk PutOrderCancel req).1 = d
      \/ exists i o,
           orders d !! i = Some o /\ addressed req u o = true
           /\ get o "status" = VStr "placed"
           /\ let o' := <["status" := VStr "cancelled"]> o in
              let d' := {| users := users d; orders := <[i := o']> (orders d);
                           supportTickets := supportTickets d |} in
              serve d clk PutOrderCancel req = (d', Sent 200 (VObj o'))
              /\ get o' "status" = VStr "cancelled"
              /\ (forall k, k <> "status" -> o' !! k = o !! k)
              /\ forall clk', serve d' clk' PutOrderCancel req = (d', cancel_refused)).
Proof.
  intros Hreach Hu. apply wf_reachable in Hreach. split.
  - intros o Ho Hp Hst. apply list_elem_of_lookup in Ho as [j Hj].
    destruct (findIndex_is_Some (addressed req u) _ j o Hj Hp) as (i & Hi & Hle).
    destruct (findIndex_Some _ _ _ Hi) as (oi & Hio & Hpi & _).
    destruct (decide (i = j)) as [->|Hne].
    + rewrite Hj in Hio. injection Hio as <-.
      by rewrite (cancel_found d clk req u Hu j o Hi Hj), Hst.
    + exfalso. apply (wf_cancelled_first d Hreach i j oi o Hio Hj); [lia | exact Hst |].
      by apply (addressed_keys d req u Hu).
  - destruct (findIndex (addressed req u) (orders d)) as [i|] eqn:Hi.
    + destruct (findIndex_Some _ _ _ Hi) as (o & Hio & Hp & _).
      destruct (strict_eq (get o "status") (VStr "placed")) eqn:Hst.
      * right. exists i, o. split; [exact Hio|]. split; [exact Hp|].
        split; [by apply strict_eq_str|]. cbv zeta.
        split; [by rewrite (cancel_found d clk req u Hu i o Hi Hio), Hst|].
        split; [apply get_insert|].
        split; [intros k Hk; by apply lookup_insert_ne|].
        intros clk'. by apply (cancel_twice d req u Hu).
      * left. by rewrite (cancel_found d clk req u Hu i o Hi Hio), Hst.
    + left. by rewrite (cancel_missing d clk req u Hu Hi).
Qed.

Lemma cancel_order_only_from_placed_witness :
  serve alice_cancelled (at_time 1700000000009) PutOrderCancel
        (as_user "U-1700000000001" ∅ "ORD-1700000000007")
  = (alice_cancelled, cancel_refused).
Proof.
  apply (proj1 (cancel_order_only_from_placed alice_cancelled (at_time 1700000000009)
                  (as_user "U-1700000000001" ∅ "ORD-1700000000007") alice_record
                  (ex_intro _ [ register_alice 1700000000001;
                                register_bob 1700000000002;
                                order_as "U-1700000000001" 1700000000007;
                                cancel_as "U-1700000000001" "ORD-1700000000007"
                                          1700000000008 ] eq_refl)
                  eq_refl)
               (alice_order "cancelled")).
  - apply list_elem_of_here.
  - reflexivity.
  - reflexivity.
Defined.

(** ** User identifiers *)

Section Identifiers.




End Identifiers.






(** ** What the answers disclose *)

Section Disclosure.

Variables (d : db) (clk : clock) (req : request).

Lemma adminUsers_never_returns_password ps :
  (serve d clk GetAdminUsers req).2 = Sent 200 (VArr ps) ->
  forall p, p ∈ ps -> exists o, p = VObj o /\ o !! "password" = None.
Proof.
  destruct (resolve d req) as [u|] eqn:Hu.
  - rewrite (serve_admin d clk req GetAdminUsers u) by (done || apply list_elem_of_further, list_elem_of_here).
    destruct (truthy _); [|discriminate]. simpl. intros [= <-] p Hp.
    apply list_elem_of_In, in_map_iff in Hp as (v & <- & _).
    eexists. split; [reflexivity|]. apply lookup_delete_eq.
  - destruct (serve_unauthenticated d clk req GetAdminUsers) as [m ->];
      [discriminate | discriminate | exact Hu | discriminate].
Qed.

End Disclosure.

(** C5. In every store the server reaches, Update Profile by a resolved
    caller answers 200 with the message and, under [user], the caller's
    record as stored after the update, whose [password] property is the
    stored password.  The answers of Get Profile, Register, Login and Admin
    List Users carry no [password] property. *)
Theorem update_profile_answers_with_password d clk req u :
  reachable d ->
  resolve d req = Some u ->
  (exists i usr pw,
     users d !! i = Some u
     /\ (serve d clk PutProfile req).2 =
          Sent 200 (VObj (object [ ("message", VStr "Profile updated successfully!");
                                   ("user", VObj usr) ]))
     /\ users (serve d clk PutProfile req).1 !! i = Some usr
     /\ u !! "password" = Some pw
     /\ usr !! "password" = Some pw
     /\ truthy pw = true)
  /\ (exists p, serve d clk GetProfile req = (d, Sent 200 (VObj p))
                /\ p !! "password" = None)
  /\ (forall clk' req' usr,
        response_user (serve d clk' PostRegister req').2 = Some usr ->
        usr !! "password" = None)
  /\ (forall clk' req' usr,
        response_user (serve d clk' PostLogin req').2 = Some usr ->
        usr !! "password" = None)
  /\ (forall clk' req' ps,
        (serve d clk' GetAdminUsers req').2 = Sent 200 (VArr ps) ->
        forall p, p ∈ ps -> exists o, p = VObj o /\ o !! "password" = None).
Proof.
  intros Hreach Hu. apply wf_reachable in Hreach.
  split; [|split; [|split; [|split]]].
  - destruct (putProfile_spec d clk req u Hu) as (i & Hi & Hs). cbv zeta in Hs.
    assert (Hin : u ∈ users d) by (eapply list_elem_of_lookup_2; eauto).
    destruct (wf_user_password d Hreach u Hin) as (pw & Hpw & Ht).
    exists i. eexists. exists pw. rewrite Hs. cbn [fst snd users].
    split; [exact Hi|]. split; [reflexivity|].
    split; [apply list_lookup_insert_eq; by eapply lookup_lt_Some|].
    split; [exact Hpw|]. split; [|exact Ht].
    rewrite get_extend_profile by apply password_not_profile_field. exact Hpw.
  - exists (delete "password" u). split; [by apply getProfile_spec|].
    apply lookup_delete_eq.
  - intros clk' req' usr. apply register_never_returns_password.
  - intros clk' req' usr. apply login_never_returns_password.
  - intros clk' req' ps. apply adminUsers_never_returns_password.
Qed.

Lemma update_profile_answers_with_password_witness :
  exists i usr,
    users two_users !! i = Some alice_record
    /\ (serve two_users (at_time 9) PutProfile
          (as_user "U-1700000000001" rename_body "")).2 =
         Sent 200 (VObj (object [ ("message", VStr "Profile updated successfully!");
                                  ("user", VObj usr) ]))
    /\ usr !! "password" = Some (VStr "p1").
Proof.
  destruct (proj1 (update_profile_answers_with_password two_users (at_time 9)
                     (as_user "U-1700000000001" rename_body "") alice_record
                     (ex_intro _ [ register_alice 1700000000001;
                                   register_bob 1700000000002 ] eq_refl)
                     eq_refl))
    as (i & usr & pw & Hi & Hs & _ & Hpw & Hpw' & _).
  exists i, usr. split; [exact Hi|]. split; [exact Hs|].
  rewrite Hpw'. rewrite <- Hpw. reflexivity.
Defined.

(** ** The scenario of the specification, run on the model *)

Example iso_of_epoch : toISOString 0 = "1970-01-01T00:00:00.000Z".
Proof. reflexivity. Qed.

Example iso_of_admin_stamp : toISOString 1670000000000 = "2022-12-02T16:53:20.000Z".
Proof. reflexivity. Qed.

Example iso_of_leap_day : toISOString 951782400000 = "2000-02-29T00:00:00.000Z".
Proof. reflexivity. Qed.

Example register_login_order_cancel :
  let d1 := step db0 (register_alice 1700000000001) in
  let d2 := step d1 (order_as "U-1700000000001" 1700000000007) in
  let d3 := step d2 (cancel_as "U-1700000000001" "ORD-1700000000007" 1700000000008) in
  response_user (serve db0 (at_time 1700000000001) PostRegister
                   (anonymous alice_body)).2
    = Some (object [ ("id", VStr "U-1700000000001"); ("name", VStr "Alice") ])
  /\ response_user (serve d1 (at_time 1700000000002) PostLogin
                      (anonymous (object [ ("contact", VStr "a@x.com");
                                           ("password", VStr "p1") ]))).2
     = Some (object [ ("id", VStr "U-1700000000001"); ("name", VStr "Alice");
                      ("isAdmin", VBool false) ])
  /\ orders d2 = [alice_order "placed"]
  /\ orders d3 = [alice_order "cancelled"]
  /\ serve d3 (at_time 1700000000009) PutOrderCancel
       (as_user "U-1700000000001" ∅ "ORD-1700000000007") = (d3, cancel_refused)
  /\ (serve d3 (at_time 1700000000009) GetAdminStats
        (as_user "U-1700000000001" ∅ "")).2
     = Sent 403 (message "Forbidden: Admin access required.")
  /\ (serve d3 (at_time 1700000000009) GetAdminStats
        (as_user "U-1670000000000" ∅ "")).2
     = Sent 200 (VObj (object [ ("userCount", VNum 2); ("orderCount", VNum 1) ])).
Proof. cbv zeta. repeat split; vm_compute; reflexivity. Qed.

(** ** Every route at once: answers and store changes *)

Ltac in_list :=
  repeat first [apply list_elem_of_here | apply list_elem_of_further].

Ltac read_props :=
  unfold extend, object; simpl;
  repeat first [rewrite get_insert | rewrite get_insert_ne by done].

Section Summary.

Variables (d : db) (clk : clock) (req : request).

Lemma serve_change r : change d clk req (serve d clk r req).1.
Proof.
  destruct r;
    try (destruct (resolve d req) as [u|] eqn:Hu;
         [| match goal with |- context [serve d clk ?r req] =>
              destruct (serve_unauthenticated d clk req r) as [m ->];
                [discriminate | discriminate | exact Hu | apply ch_none]
            end]).
  - unfold serve; simpl. unfold register.
    destruct (_ || _) eqn:Hv; [apply ch_none|].
    destruct (method_includes _ _) as [isEmail|]; [|apply ch_none].
    destruct (existsb _ _); [apply ch_none|].
    simpl. by apply ch_register.
  - unfold serve; simpl. unfold login. destruct (find _ _); apply ch_none.
  - rewrite (getProfile_spec d clk req u Hu). apply ch_none.
  - destruct (putProfile_spec d clk req u Hu) as (i & Hi & ->).
    simpl. by apply ch_profile.
  - rewrite (postOrder_spec d clk req u Hu). simpl. by apply ch_order.
  - rewrite (getOrders_spec d clk req u Hu). apply ch_none.
  - destruct (findIndex (addressed req u) (orders d)) as [i|] eqn:Hi.
    + destruct (findIndex_Some _ _ _ Hi) as (o & Hio & _).
      rewrite (cancel_found d clk req u Hu i o Hi Hio).
      destruct (strict_eq _ _) eqn:Hst; simpl; [|apply ch_none].
      apply (ch_cancel _ _ _ u); try done. by apply strict_eq_str.
    + rewrite (cancel_missing d clk req u Hu Hi). apply ch_none.
  - rewrite (serve_admin d clk req GetAdminStats u) by (done || in_list).
    destruct (truthy _); apply ch_none.
  - rewrite (serve_admin d clk req GetAdminUsers u) by (done || in_list).
    destruct (truthy _); apply ch_none.
  - rewrite (serve_admin d clk req GetAdminOrders u) by (done || in_list).
    destruct (truthy _); apply ch_none.
  - rewrite (serve_authenticated d clk req GetTickets getTickets u) by done.
    apply ch_none.
  - rewrite (serve_authenticated d clk req PostTickets postTicket u) by done.
    unfold postTicket, attach. cbn [user body fst].
    by eapply (ch_ticket d clk req u).
Qed.

(** The answer of a route to a resolved caller, behind [authMiddleware]. *)
Lemma serve_resolved r u :
  r <> PostRegister -> r <> PostLogin ->
  resolve d req = Some u ->
  exists s p, (serve d clk r req).2 = Sent s p
              /\ s ∈ statuses r /\ s <> 401%nat
              /\ ((serve d clk r req).1 = d
                  \/ (s = 200%nat /\ r ∈ updating_routes)
                  \/ (s = 201%nat /\ r ∈ creating_routes)).
Proof.
  intros Hr1 Hr2 Hu. destruct r; try congruence.
  - rewrite (getProfile_spec d clk req u Hu).
    do 2 eexists. split; [reflexivity|]. repeat split; [in_list | done | by left].
  - destruct (putProfile_spec d clk req u Hu) as (i & Hi & ->).
    do 2 eexists. split; [reflexivity|].
    repeat split; [in_list | done |]. right; left. split; [done | in_list].
  - rewrite (postOrder_spec d clk req u Hu).
    do 2 eexists. split; [reflexivity|].
    repeat split; [in_list | done |]. right; right. split; [done | in_list].
  - rewrite (getOrders_spec d clk req u Hu).
    do 2 eexists. split; [reflexivity|]. repeat split; [in_list | done | by left].
  - destruct (findIndex (addressed req u) (orders d)) as [i|] eqn:Hi.
    + destruct (findIndex_Some _ _ _ Hi) as (o & Hio & _).
      rewrite (cancel_found d clk req u Hu i o Hi Hio).
      destruct (strict_eq _ _); do 2 eexists; (split; [reflexivity|]).
      * repeat split; [in_list | done |]. right; left. split; [done | in_list].
      * repeat split; [in_list | done | by left].
    + rewrite (cancel_missing d clk req u Hu Hi).
      do 2 eexists. split; [reflexivity|]. repeat split; [in_list | done | by left].
  - rewrite (serve_admin d clk req GetAdminStats u) by (done || in_list).
    destruct (truthy _); do 2 eexists; (split; [reflexivity|]);
      (repeat split; [in_list | done | by left]).
  - rewrite (serve_admin d clk req GetAdminUsers u) by (done || in_list).
    destruct (truthy _); do 2 eexists; (split; [reflexivity|]);
      (repeat split; [in_list | done | by left]).
  - rewrite (serve_admin d clk req GetAdminOrders u) by (done || in_list).
    destruct (truthy _); do 2 eexists; (split; [reflexivity|]);
      (repeat split; [in_list | done | by left]).
  - rewrite (serve_authenticated d clk req GetTickets getTickets u) by done.
    do 2 eexists. split; [reflexivity|]. repeat split; [in_list | done | by left].
  - destruct (postTicket_spec d clk req u Hu) as (t & e & -> & _).
    do 2 eexists. split; [reflexivity|].
    repeat split; [in_list | done |]. right; right. split; [done | in_list].
Qed.

(** Register and Login, which run no middleware. *)
Lemma serve_open r :
  r = PostRegister \/ r = PostLogin ->
  match (serve d clk r req).2 with
  | Sent s _ => s ∈ statuses r
                /\ ((serve d clk r req).1 = d
                    \/ (s = 201%nat /\ r ∈ creating_routes))
  | TypeError => r = PostRegister /\ (serve d clk r req).1 = d
  end.
Proof.
  intros [-> | ->]; unfold serve; simpl.
  - unfold register.
    destruct (_ || _); [simpl; split; [in_list | by left]|].
    destruct (method_includes _ _) as [isEmail|]; [|by simpl].
    destruct (existsb _ _); simpl.
    + split; [in_list | by left].
    + split; [in_list|]. right. split; [done | in_list].
  - unfold login. destruct (find _ _); simpl; (split; [in_list | by left]).
Qed.

End Summary.

(** Whatever the store and the request with its parsed body, a route
    answers with one of the status codes its middlewares and handler name;
    the only exception that escapes a handler then comes from Register.
    Update Profile never answers 404: behind [authMiddleware] its lookup
    always finds the caller's record. *)
Theorem status_codes_of_each_route d clk r req :
  match (serve d clk r req).2 with
  | Sent s _ => s ∈ statuses r
  | TypeError => r = PostRegister
  end
  /\ forall p, (serve d clk PutProfile req).2 <> Sent 404 p.
Proof.
  assert (H : forall r',
    match (serve d clk r' req).2 with
    | Sent s _ => s ∈ statuses r'
    | TypeError => r' = PostRegister
    end).
  { intros r'.
    destruct (decide (r' = PostRegister \/ r' = PostLogin)) as [Ho|Hp].
    - pose proof (serve_open d clk req r' Ho) as H.
      destruct (serve d clk r' req).2; tauto.
    - destruct (resolve d req) as [u|] eqn:Hu.
      + destruct (serve_resolved d clk req r' u) as (s & p & -> & Hs & _);
          [tauto | tauto | done | done].
      + destruct (serve_unauthenticated d clk req r') as [m ->];
          [tauto | tauto | done |]. simpl. destruct r'; try tauto; in_list. }
  split; [apply H|].
  intros p Hp. specialize (H PutProfile). rewrite Hp in H. simpl in H.
  apply elem_of_cons in H as [H | H]; [discriminate|].
  apply list_elem_of_singleton in H. discriminate.
Qed.

(** On a request with a parsed body, a handler throws only in Register,
    and exactly when name and password are present and the contact is a
    value without a callable [includes]: a non-zero number, [true] or an
    object.  The store is then unchanged. *)
Theorem exception_only_from_register_contact d clk r req :
  ((serve d clk r req).2 = TypeError <->
     r = PostRegister
     /\ truthy (get (body req) "name") = true
     /\ truthy (get (body req) "password") = true
     /\ ((exists n, get (body req) "contact" = VNum n /\ n <> 0%Z)
         \/ get (body req) "contact" = VBool true
         \/ exists o, get (body req) "contact" = VObj o))
  /\ ((serve d clk r req).2 = TypeError -> (serve d clk r req).1 = d).
Proof.
  assert (Hreg : r = PostRegister ->
    ((serve d clk r req).2 = TypeError <->
       truthy (get (body req) "name") = true
       /\ truthy (get (body req) "password") = true
       /\ ((exists n, get (body req) "contact" = VNum n /\ n <> 0%Z)
           \/ get (body req) "contact" = VBool true
           \/ exists o, get (body req) "contact" = VObj o))).
  { intros ->. unfold serve; simpl. unfold register.
    destruct (truthy (get (body req) "name")) eqn:Hn; simpl;
      [|split; [discriminate | intros [? _]; discriminate]].
    destruct (truthy (get (body req) "password")) eqn:Hp;
      [|rewrite orb_true_r; simpl; split; [discriminate | intros (_ & ? & _); discriminate]].
    rewrite orb_false_r.
    destruct (get (body req) "contact") as [| |b|n|c|l|o] eqn:Hc; simpl.
    - split; [discriminate|]. intros (_ & _ & [(n & ? & _) | [? | (o & ?)]]); discriminate.
    - split; [discriminate|]. intros (_ & _ & [(n & ? & _) | [? | (o & ?)]]); discriminate.
    - destruct b; simpl.
      + split; [intros _; repeat split; right; by left | done].
      + split; [discriminate|].
        intros (_ & _ & [(n & ? & _) | [? | (o & ?)]]); discriminate.
    - destruct (n =? 0)%Z eqn:Hz; simpl.
      + apply Z.eqb_eq in Hz as ->. split; [discriminate|].
        intros (_ & _ & [(n & [= <-] & Hne) | [? | (o & ?)]]); done.
      + apply Z.eqb_neq in Hz.
        split; [intros _; repeat split; left; by exists n | done].
    - destruct (String.eqb c ""); simpl.
      + split; [discriminate|].
        intros (_ & _ & [(n & ? & _) | [? | (o & ?)]]); discriminate.
      + destruct (existsb _ _); simpl; (split; [discriminate|]);
          intros (_ & _ & [(n & ? & _) | [? | (o & ?)]]); discriminate.
    - destruct (existsb _ (users d)); simpl; (split; [discriminate|]);
        intros (_ & _ & [(n & ? & _) | [? | (o' & ?)]]); discriminate.
    - split; [intros _; repeat split; right; right; by exists o | done]. }
  assert (Hthrow : (serve d clk r req).2 = TypeError ->
                   r = PostRegister /\ (serve d clk r req).1 = d).
  { intros Ht.
    destruct (decide (r = PostRegister \/ r = PostLogin)) as [Ho|Hp].
    - pose proof (serve_open d clk req r Ho) as H. by rewrite Ht in H.
    - destruct (resolve d req) as [u|] eqn:Hu.
      + destruct (serve_resolved d clk req r u) as (s & p & E & _);
          [tauto | tauto | done | congruence].
      + destruct (serve_unauthenticated d clk req r) as [m E];
          [tauto | tauto | done |]. rewrite E in Ht. discriminate. }
  split; [|by intros Ht; apply Hthrow].
  split.
  - intros Ht. destruct (Hthrow Ht) as [Hr _]. split; [exact Hr|]. by apply Hreg.
  - intros [Hr Hrest]. by apply Hreg.
Qed.

Lemma exception_only_from_register_contact_witness :
  (serve db0 (at_time 5) PostRegister (anonymous numeric_contact_body)).2 = TypeError
  /\ (serve db0 (at_time 5) PostRegister (anonymous numeric_contact_body)).1 = db0.
Proof.
  assert (H : (serve db0 (at_time 5) PostRegister (anonymous numeric_contact_body)).2
              = TypeError).
  { apply (proj1 (exception_only_from_register_contact db0 (at_time 5) PostRegister
                    (anonymous numeric_contact_body))).
    split; [reflexivity|]. split; [reflexivity|]. split; [reflexivity|].
    left. exists 5550100%Z. split; [reflexivity | discriminate]. }
  split; [exact H|].
  exact (proj2 (exception_only_from_register_contact db0 (at_time 5) PostRegister
                  (anonymous numeric_contact_body)) H).
Defined.

(** X3. On the ten routes behind [authMiddleware], a request without the
    [x-user-id] header, or with an empty one, is answered 401 "User ID is
    required"; one whose identifier no stored user has is answered 401 "User
    not found"; the store is unchanged in both cases, and a request that
    does resolve to a user is never answered 401. *)
Theorem unauthenticated_exactly_when_unresolved d clk r req :
  r <> PostRegister -> r <> PostLogin ->
  ((x_user_id req = None \/ x_user_id req = Some "") ->
     serve d clk r req = (d, Sent 401 (message "Unauthorized: User ID is required.")))
  /\ (forall h, x_user_id req = Some h -> h <> "" ->
        (forall v, v ∈ users d -> get v "id" <> VStr h) ->
        serve d clk r req = (d, Sent 401 (message "Unauthorized: User not found.")))
  /\ ((exists p, (serve d clk r req).2 = Sent 401 p) <-> resolve d req = None).
Proof.
  intros Hr1 Hr2.
  assert (Hstop : forall o, authMiddleware d req = Stop o -> serve d clk r req = (d, o)).
  { intros o Ho. unfold serve. destruct r; simpl; try congruence; by rewrite Ho. }
  split; [|split].
  - intros Hh. apply Hstop. unfold authMiddleware. by destruct Hh as [-> | ->].
  - intros h Hh Hne Hno. apply Hstop. unfold authMiddleware. rewrite Hh.
    apply String.eqb_neq in Hne. rewrite Hne.
    destruct (find _ (users d)) as [v|] eqn:Hf; [|done].
    apply find_elem in Hf as [Hin Hid]. apply strict_eq_str in Hid.
    by destruct (Hno v Hin).
  - split.
    + intros [p Hp]. destruct (resolve d req) as [u|] eqn:Hu; [|done].
      destruct (serve_resolved d clk req r u Hr1 Hr2 Hu) as (s & q & E & _ & Hs & _).
      rewrite E in Hp. injection Hp as -> _. done.
    + intros Hn. destruct (serve_unauthenticated d clk req r Hr1 Hr2 Hn) as [m ->].
      by eexists.
Qed.

Lemma unauthenticated_exactly_when_unresolved_witness :
  serve two_users (at_time 9) GetOrders (as_user "U-404" ∅ "")
  = (two_users, Sent 401 (message "Unauthorized: User not found.")).
Proof.
  apply (proj1 (proj2 (unauthenticated_exactly_when_unresolved two_users (at_time 9)
                         GetOrders (as_user "U-404" ∅ "")
                         ltac:(discriminate) ltac:(discriminate)))
               "U-404" eq_refl ltac:(discriminate)).
  intros v Hv. apply strict_eq_str_false.
  apply list_elem_of_In in Hv.
  destruct Hv as [<- | [<- | [<- | []]]]; reflexivity.
Defined.

(** X4. Serving a request changes the store only when Update Profile or
    Cancel Order answers 200, or Register, Create Order or Submit Ticket
    answers 201.  Every other answer, so every error, every read route and
    Login, leaves the store exactly as it was. *)
Theorem store_changes_only_on_success d clk r req :
  ((serve d clk r req).1 = d
   \/ (exists p, (serve d clk r req).2 = Sent 200 p /\ r ∈ updating_routes)
   \/ (exists p, (serve d clk r req).2 = Sent 201 p /\ r ∈ creating_routes))
  /\ (r ∈ read_only_routes -> (serve d clk r req).1 = d).
Proof.
  assert (H : (serve d clk r req).1 = d
     \/ (exists p, (serve d clk r req).2 = Sent 200 p /\ r ∈ updating_routes)
     \/ (exists p, (serve d clk r req).2 = Sent 201 p /\ r ∈ creating_routes)).
  { destruct (decide (r = PostRegister \/ r = PostLogin)) as [Ho|Hp].
    - pose proof (serve_open d clk req r Ho) as H.
      destruct (serve d clk r req).2 as [s p|] eqn:E; [|by left; apply H].
      destruct H as [_ [H | [-> H]]]; [by left|]. right; right. by exists p.
    - destruct (resolve d req) as [u|] eqn:Hu.
      + destruct (serve_resolved d clk req r u) as (s & p & E & _ & _ & H);
          [tauto | tauto | done |].
        destruct H as [H | [[-> H] | [-> H]]]; [by left | |].
        * right; left. by exists p.
        * right; right. by exists p.
      + destruct (serve_unauthenticated d clk req r) as [m ->];
          [tauto | tauto | done |]. by left. }
  split; [exact H|].
  intros Hro. destruct H as [H | [(p & _ & H) | (p & _ & H)]]; [exact H | |];
    exfalso; unfold read_only_routes, updating_routes, creating_routes in *;
    repeat (apply elem_of_cons in Hro as [-> | Hro]);
    try (by inversion Hro);
    repeat (apply elem_of_cons in H as [H | H]; [discriminate|]); inversion H.
Qed.

(** ** Handlers the claims do not single out *)

(** X5. Register answers 400 "Please fill all fields." exactly when the
    name, the contact or the password is not truthy, in particular when one
    of them is absent from the body, [null] or the empty string; nothing is
    stored then, whether or not the contact is already taken. *)
Theorem register_rejects_missing_fields d clk req :
  let missing := truthy (get (body req) "name") = false
                 \/ truthy (get (body req) "contact") = false
                 \/ truthy (get (body req) "password") = false in
  ((exists p, (serve d clk PostRegister req).2 = Sent 400 p) <-> missing)
  /\ (missing ->
      serve d clk PostRegister req = (d, Sent 400 (message "Please fill all fields.")))
  /\ (forall k, k ∈ ["name"; "contact"; "password"] ->
        body req !! k = None \/ body req !! k = Some VNull
        \/ body req !! k = Some (VStr "") ->
        missing).
Proof.
  intros missing.
  assert (Hm : missing <->
    negb (truthy (get (body req) "name")) || negb (truthy (get (body req) "contact"))
    || negb (truthy (get (body req) "password")) = true).
  { unfold missing. rewrite !orb_true_iff, !negb_true_iff. tauto. }
  assert (Hs : missing -> serve d clk PostRegister req
                          = (d, Sent 400 (message "Please fill all fields."))).
  { intros H. apply Hm in H. unfold serve; simpl. unfold register. by rewrite H. }
  split; [|split; [exact Hs|]].
  - split; [|intros H; rewrite (Hs H); by eexists].
    intros [p Hp]. apply Hm. unfold serve in Hp; simpl in Hp. unfold register in Hp.
    destruct (_ || _); [done|].
    destruct (method_includes _ _); [|discriminate].
    destruct (existsb _ _); discriminate.
  - intros k Hk Hv.
    assert (Hf : truthy (get (body req) k) = false).
    { unfold get. by destruct Hv as [-> | [-> | ->]]. }
    unfold missing.
    repeat (apply elem_of_cons in Hk as [-> | Hk]); [tauto | tauto | tauto |].
    inversion Hk.
Qed.

Lemma register_rejects_missing_fields_witness :
  serve two_users (at_time 5) PostRegister (anonymous no_name_body)
  = (two_users, Sent 400 (message "Please fill all fields.")).
Proof.
  apply (proj1 (proj2 (register_rejects_missing_fields two_users (at_time 5)
                         (anonymous no_name_body)))).
  apply (proj2 (proj2 (register_rejects_missing_fields two_users (at_time 5)
                         (anonymous no_name_body))) "name").
  - in_list.
  - left. reflexivity.
Defined.

(** X6. Create Order by a resolved caller appends one order and answers 201
    with it.  The order's [userId] is the caller's identifier, its [id] is
    [ORD-] followed by the clock reading, its [status] is [placed], whatever
    the payload says under these three names; every other property of the
    payload is stored as sent.  Users, earlier orders and tickets are
    unchanged. *)
Theorem create_order_stamps_owner_id_status d clk req u :
  resolve d req = Some u ->
  exists o,
    serve d clk PostOrders req =
      ({| users := users d; orders := orders d ++ [o];
          supportTickets := supportTickets d |}, Sent 201 (VObj o))
    /\ o !! "userId" = Some (get u "id")
    /\ o !! "id" = Some (VStr ("ORD-" +:+ show_int (clk O)))
    /\ o !! "status" = Some (VStr "placed")
    /\ forall k, k ∉ order_stamps -> o !! k = body req !! k.
Proof.
  intros Hu. rewrite (postOrder_spec d clk req u Hu). cbv zeta.
  eexists. split; [reflexivity|].
  unfold extend; simpl.
  split; [by simplify_map_eq|]. split; [by simplify_map_eq|].
  split; [by simplify_map_eq|].
  intros k Hk.
  apply (extend_lookup_other (body req)
           [ ("userId", get u "id"); ("id", VStr ("ORD-" +:+ show_int (clk O)));
             ("status", VStr "placed") ] k Hk).
Qed.

Lemma create_order_stamps_owner_id_status_witness :
  exists o,
    serve two_users (at_time 1700000000007) PostOrders
          (as_user "U-1700000000001" forged_order_body "") =
      ({| users := users two_users; orders := orders two_users ++ [o];
          supportTickets := supportTickets two_users |}, Sent 201 (VObj o))
    /\ o !! "userId" = Some (get alice_record "id")
    /\ o !! "id" = Some (VStr ("ORD-" +:+ show_int 1700000000007))
    /\ o !! "status" = Some (VStr "placed")
    /\ forall k, k ∉ order_stamps -> o !! k = forged_order_body !! k.
Proof.
  apply (create_order_stamps_owner_id_status two_users (at_time 1700000000007)
           (as_user "U-1700000000001" forged_order_body "") alice_record).
  reflexivity.
Defined.

(** Submit Support Ticket with a parsed body, by a resolved caller:
    whatever the body holds, it appends one ticket and answers 201 with it.
    The ticket is [open], carries the caller's identifier and name and [T-]
    followed by the first clock reading, and its thread is the single
    customer entry with the submitted message; a body without [message]
    gives a ticket whose message and entry text are [undefined].  The
    entry's timestamp is the ticket's [createdAt] whenever the clock reads
    the same at the handler's second and third reading. *)
Theorem submit_ticket_always_creates d clk req u :
  resolve d req = Some u ->
  exists t e,
    serve d clk PostTickets req =
      ({| users := users d; orders := orders d;
          supportTickets := supportTickets d ++ [t] |}, Sent 201 (VObj t))
    /\ get t "id" = VStr ("T-" +:+ show_int (clk O))
    /\ get t "userId" = get u "id"
    /\ get t "name" = get u "name"
    /\ get t "status" = VStr "open"
    /\ get t "message" = get (body req) "message"
    /\ get t "thread" = VArr [VObj e]
    /\ get e "from" = VStr "customer"
    /\ get e "text" = get (body req) "message"
    /\ (body req !! "message" = None ->
        get t "message" = VUndefined /\ get e "text" = VUndefined)
    /\ (clk 1%nat = clk 2%nat -> get e "at" = get t "createdAt").
Proof.
  intros Hu.
  rewrite (serve_authenticated d clk req PostTickets postTicket u) by done.
  unfold postTicket, attach. cbn [user body].
  do 2 eexists. split; [reflexivity|].
  repeat split.
  - change (get (body req) "message" = VUndefined). unfold get. by rewrite H.
  - change (get (body req) "message" = VUndefined). unfold get. by rewrite H.
  - intros ->. reflexivity.
Qed.

Lemma submit_ticket_always_creates_witness :
  exists t e,
    serve two_users (at_time 1700000000020) PostTickets
          (as_user "U-1700000000002" ∅ "") =
      ({| users := users two_users; orders := orders two_users;
          supportTickets := supportTickets two_users ++ [t] |}, Sent 201 (VObj t))
    /\ get t "status" = VStr "open"
    /\ get t "thread" = VArr [VObj e]
    /\ get e "text" = VUndefined
    /\ get e "at" = get t "createdAt".
Proof.
  destruct (submit_ticket_always_creates two_users (at_time 1700000000020)
              (as_user "U-1700000000002" ∅ "") bob_record eq_refl)
    as (t & e & Hs & _ & _ & _ & Hst & _ & Hth & _ & _ & Hno & Hat).
  exists t, e. split; [exact Hs|]. split; [exact Hst|]. split; [exact Hth|].
  split; [exact (proj2 (Hno eq_refl)) | exact (Hat eq_refl)].
Defined.

Lemma find_first {A} (p : A -> bool) (l : list A) i x :
  l !! i = Some x -> p x = true ->
  (forall j y, (j < i)%nat -> l !! j = Some y -> p y = false) ->
  find p l = Some x.
Proof.
  revert i. induction l as [|a l IH]; intros [|i] Hi Hx Hlt; simpl in *; try done.
  - injection Hi as ->. by rewrite Hx.
  - rewrite (Hlt O a) by (done || lia). apply (IH i Hi Hx).
    intros j y Hj Hy. apply (Hlt (S j) y); [lia | done].
Qed.

(** X8. With a string contact and a string password, Login answers 200 with
    the identifier, name and admin flag of the first stored user, in store
    order, whose email or mobile is the contact and whose password is the
    password, both compared exactly; it answers 401 when no stored user
    matches.  The store is unchanged either way. *)
Theorem login_answers_first_match d clk req c pw :
  get (body req) "contact" = VStr c ->
  get (body req) "password" = VStr pw ->
  let matches (u : obj) :=
    (get u "email" = VStr c \/ get u "mobile" = VStr c)
    /\ get u "password" = VStr pw in
  (forall i u,
     users d !! i = Some u -> matches u ->
     (forall j v, (j < i)%nat -> users d !! j = Some v -> ~ matches v) ->
     serve d clk PostLogin req =
       (d, Sent 200 (VObj (object
          [ ("message", VStr "Login successful!");
            ("user", VObj (object
               [ ("id", get u "id"); ("name", get u "name");
                 ("isAdmin", VBool (truthy (get u "isAdmin"))) ])) ]))))
  /\ ((forall v, v ∈ users d -> ~ matches v) ->
      serve d clk PostLogin req =
        (d, Sent 401 (message "Incorrect mobile number/email or password."))).
Proof.
  intros Hc Hp matches.
  set (P := fun u : obj =>
         (strict_eq (get u "email") (VStr c) || strict_eq (get u "mobile") (VStr c))
         && strict_eq (get u "password") (VStr pw)).
  assert (Hm : forall u, P u = true <-> matches u).
  { intros u. unfold P, matches.
    rewrite andb_true_iff, orb_true_iff, !strict_eq_str. tauto. }
  assert (Hs : serve d clk PostLogin req =
    match find P (users d) with
    | Some u =>
        (d, Sent 200 (VObj (object
           [ ("message", VStr "Login successful!");
             ("user", VObj (object [ ("id", get u "id"); ("name", get u "name");
                                     ("isAdmin", VBool (truthy (get u "isAdmin"))) ])) ])))
    | None => (d, Sent 401 (message "Incorrect mobile number/email or password."))
    end).
  { unfold serve; simpl. unfold login. by rewrite Hc, Hp. }
  rewrite Hs. split.
  - intros i u Hi Hu Hbefore. rewrite (find_first P (users d) i u); [done | done | |].
    + by apply Hm.
    + intros j v Hj Hv. destruct (P v) eqn:E; [|done].
      apply Hm in E. by destruct (Hbefore j v Hj Hv).
  - intros Hno. destruct (find P (users d)) as [u|] eqn:Hf; [|done].
    apply find_elem in Hf as [Hin Hu]. apply Hm in Hu. by destruct (Hno u Hin).
Qed.

Lemma login_answers_first_match_witness :
  serve two_users (at_time 9) PostLogin (anonymous alice_login_body) =
    (two_users, Sent 200 (VObj (object
       [ ("message", VStr "Login successful!");
         ("user", VObj (object
            [ ("id", VStr "U-1700000000001"); ("name", VStr "Alice");
              ("isAdmin", VBool false) ])) ]))).
Proof.
  apply (proj1 (login_answers_first_match two_users (at_time 9)
                  (anonymous alice_login_body) "a@x.com" "p1" eq_refl eq_refl)
               1%nat alice_record eq_refl).
  - split; [by left | reflexivity].
  - intros [|j] v Hj Hv; [|lia]. injection Hv as <-. intros [_ H]. discriminate H.
Defined.

(** ** One request after another *)

Section Sequences.

Context {A : Type} (p : A -> bool).

Lemma findIndex_snoc (l : list A) y :
  (forall x, x ∈ l -> p x = false) -> p y = true ->
  findIndex p (l ++ [y]) = Some (length l).
Proof.
  intros Hl Hy. induction l as [|a l IH]; simpl; [by rewrite Hy|].
  rewrite (Hl a) by apply list_elem_of_here. rewrite IH; [done|].
  intros x Hx. apply Hl. by right.
Qed.

Lemma find_snoc (l : list A) y :
  find p (l ++ [y]) =
    match find p l with
    | Some x => Some x
    | None => if p y then Some y else None
    end.
Proof. induction l as [|a l IH]; simpl; [done|]. by destruct (p a). Qed.

Lemma find_insert_found (l : list A) i y :
  findIndex p l = Some i -> p y = true -> find p (<[i := y]> l) = Some y.
Proof.
  revert i. induction l as [|a l IH]; intros i; simpl; [done|].
  destruct (p a) eqn:Ha.
  - intros [= <-] Hy. simpl. by rewrite Hy.
  - destruct (findIndex p l) as [n|]; simpl; [|done].
    intros [= <-] Hy. simpl. rewrite Ha. by apply IH.
Qed.

Lemma insert_snoc (l : list A) y z : <[length l := z]> (l ++ [y]) = l ++ [z].
Proof.
  rewrite insert_app_r_alt by lia. by rewrite Nat.sub_diag.
Qed.

End Sequences.

Section Callers.

Variables (d : db) (req : request) (u : obj).
Hypothesis Hu : resolve d req = Some u.

(** The same header resolves to the same account while the users are the
    same. *)
Lemma resolve_again d' req' :
  users d' = users d -> same_caller req req' -> resolve d' req' = Some u.
Proof.
  intros Hd Hc. unfold same_caller in Hc.
  unfold resolve, authMiddleware in *. rewrite Hd, Hc.
  destruct (x_user_id req) as [h|]; [|done].
  destruct (String.eqb h ""); [done|].
  by destruct (find _ (users d)).
Qed.

Lemma owned_by_caller o : get o "userId" = get u "id" -> owned_by u o = true.
Proof.
  intros E. destruct (resolve_Some d req u Hu) as (_ & _ & h & _ & _ & Hid).
  unfold owned_by. rewrite E, Hid. by apply strict_eq_str.
Qed.

(** Update Profile writes at the first index whose identifier is the
    caller's. *)
Lemma putProfile_at_first clk :
  exists i,
    findIndex (fun v => strict_eq (get v "id") (get u "id")) (users d) = Some i
    /\ users d !! i = Some u
    /\ serve d clk PutProfile req =
         (let u' := extend u [ ("name", get (body req) "name");
                               ("email", get (body req) "email");
                               ("address", get (body req) "address");
                               ("profilePic", get (body req) "profilePic") ] in
          ({| users := <[i := u']> (users d); orders := orders d;
              supportTickets := supportTickets d |},
           Sent 200 (VObj (object [ ("message", VStr "Profile updated successfully!");
                                    ("user", VObj u') ])))).
Proof.
  destruct (putProfile_index d req u Hu) as (i & Hi & Hiu). exists i.
  split; [exact Hi|]. split; [exact Hiu|].
  rewrite (serve_authenticated d clk req PutProfile putProfile u) by done.
  unfold putProfile, attach. cbn [user body]. rewrite Hi. cbn [users]. rewrite Hiu.
  rewrite list_lookup_insert_eq by (by eapply lookup_lt_Some). reflexivity.
Qed.

Lemma resolve_after_putProfile clk req' :
  same_caller req req' ->
  resolve (serve d clk PutProfile req).1 req'
  = Some (extend u [ ("name", get (body req) "name");
                     ("email", get (body req) "email");
                     ("address", get (body req) "address");
                     ("profilePic", get (body req) "profilePic") ]).
Proof.
  intros Hc. unfold same_caller in Hc.
  destruct (putProfile_at_first clk) as (i & Hi & _ & ->). cbv zeta. cbn [fst].
  destruct (resolve_Some d req u Hu) as (_ & _ & h & Hh & Hne & Hid).
  rewrite Hid in Hi.
  unfold resolve, authMiddleware. cbn [users]. rewrite Hc, Hh.
  apply String.eqb_neq in Hne. rewrite Hne.
  rewrite (find_insert_found _ _ i _ Hi); [done|].
  rewrite get_extend_profile_other by apply id_not_profile_field.
  by apply strict_eq_str.
Qed.

End Callers.

Lemma extend_profile_twice (u b : obj) :
  let props := [ ("name", get b "name"); ("email", get b "email");
                 ("address", get b "address"); ("profilePic", get b "profilePic") ] in
  extend (extend u props) props = extend u props.
Proof.
  cbv zeta. unfold extend. simpl. apply map_eq. intros k.
  rewrite !lookup_insert. repeat case_decide; done.
Qed.

(** X9. For an admin caller the three admin routes describe the same store:
    Admin List Orders answers every stored order in order, the counts of
    Admin Stats are the lengths of the Admin List Users and Admin List Orders
    answers, and what List Orders answers to any caller is a sub-sequence of
    the Admin List Orders answer. *)
Theorem admin_views_agree d clk req u :
  resolve d req = Some u ->
  truthy (get u "isAdmin") = true ->
  exists us,
    serve d clk GetAdminUsers req = (d, Sent 200 (VArr us))
    /\ length us = length (users d)
    /\ serve d clk GetAdminOrders req = (d, Sent 200 (VArr (VObj <$> orders d)))
    /\ serve d clk GetAdminStats req =
         (d, Sent 200 (VObj (object
            [ ("userCount", VNum (Z.of_nat (length us)));
              ("orderCount", VNum (Z.of_nat (length (VObj <$> orders d)))) ])))
    /\ forall clk2 req2 u2,
         resolve d req2 = Some u2 ->
         exists l, serve d clk2 GetOrders req2 = (d, Sent 200 (VArr (VObj <$> l)))
                   /\ l `sublist_of` orders d.
Proof.
  intros Hu Hadm.
  exists (List.map (fun v => VObj (delete "password" v)) (users d)).
  split; [|split; [|split; [|split]]].
  - rewrite (serve_admin d clk req GetAdminUsers u) by (done || in_list).
    by rewrite Hadm.
  - apply length_map.
  - rewrite (serve_admin d clk req GetAdminOrders u) by (done || in_list).
    by rewrite Hadm.
  - rewrite (serve_admin d clk req GetAdminStats u) by (done || in_list).
    rewrite Hadm. simpl. unfold adminStats. by rewrite length_map, length_fmap.
  - intros clk2 req2 u2 Hu2. eexists. split; [by apply getOrders_spec|].
    apply filter_bool_sublist.
Qed.

Lemma admin_views_agree_witness :
  exists us,
    serve alice_cancelled (at_time 9) GetAdminUsers (as_user "U-1670000000000" ∅ "")
      = (alice_cancelled, Sent 200 (VArr us))
    /\ serve alice_cancelled (at_time 9) GetAdminStats (as_user "U-1670000000000" ∅ "")
       = (alice_cancelled, Sent 200 (VObj (object
            [ ("userCount", VNum (Z.of_nat (length us)));
              ("orderCount", VNum 1) ]))).
Proof.
  destruct (admin_views_agree alice_cancelled (at_time 9)
              (as_user "U-1670000000000" ∅ "") admin_user eq_refl eq_refl)
    as (us & H1 & _ & _ & H2 & _).
  exists us. split; [exact H1 | exact H2].
Defined.

(** X10. After Create Order by a resolved caller, List Orders by the same
    caller answers the orders it answered before followed by the new order:
    the new order is the last element, and nothing else moved. *)
Theorem created_order_is_listed d clk req u clk' req' :
  resolve d req = Some u ->
  same_caller req req' ->
  let d' := (serve d clk PostOrders req).1 in
  exists o mine,
    (serve d clk PostOrders req).2 = Sent 201 (VObj o)
    /\ serve d clk' GetOrders req' = (d, Sent 200 (VArr (VObj <$> mine)))
    /\ serve d' clk' GetOrders req' = (d', Sent 200 (VArr (VObj <$> (mine ++ [o])))).
Proof.
  intros Hu Hc d'. unfold d'. rewrite (postOrder_spec d clk req u Hu). cbv zeta.
  cbn [fst snd].
  do 2 eexists. split; [reflexivity|].
  split; [apply getOrders_spec; by apply (resolve_again d req u Hu)|].
  rewrite (getOrders_spec _ clk' req' u) by (by apply (resolve_again d req u Hu)).
  cbn [orders]. rewrite List.filter_app. simpl.
  rewrite (owned_by_caller d req u Hu); [done|].
  by read_props.
Qed.

Lemma created_order_is_listed_witness :
  exists o mine,
    (serve two_users (at_time 1700000000007) PostOrders
       (as_user "U-1700000000001" cylinder "")).2 = Sent 201 (VObj o)
    /\ serve two_users (at_time 8) GetOrders (as_user "U-1700000000001" ∅ "")
       = (two_users, Sent 200 (VArr (VObj <$> mine)))
    /\ serve (serve two_users (at_time 1700000000007) PostOrders
                (as_user "U-1700000000001" cylinder "")).1
             (at_time 8) GetOrders (as_user "U-1700000000001" ∅ "")
       = ((serve two_users (at_time 1700000000007) PostOrders
             (as_user "U-1700000000001" cylinder "")).1,
          Sent 200 (VArr (VObj <$> (mine ++ [o])))).
Proof.
  apply (created_order_is_listed two_users (at_time 1700000000007)
           (as_user "U-1700000000001" cylinder "") alice_record (at_time 8)
           (as_user "U-1700000000001" ∅ ""));
    reflexivity.
Defined.

(** X11. After Create Order at clock reading [t] by a resolved caller who
    owned no order with identifier [ORD-t] before, Cancel Order of [ORD-t]
    by the same caller answers 200 with that order, now [cancelled], and
    changes that order only. *)
Theorem created_order_can_be_cancelled d clk req u clk' req' :
  resolve d req = Some u ->
  same_caller req req' ->
  orderId req' = "ORD-" +:+ show_int (clk O) ->
  (forall x, x ∈ orders d -> addressed req' u x = false) ->
  let d' := (serve d clk PostOrders req).1 in
  exists o,
    (serve d clk PostOrders req).2 = Sent 201 (VObj o)
    /\ orders d' = orders d ++ [o]
    /\ serve d' clk' PutOrderCancel req' =
         ({| users := users d;
             orders := orders d ++ [<["status" := VStr "cancelled"]> o];
             supportTickets := supportTickets d |},
          Sent 200 (VObj (<["status" := VStr "cancelled"]> o))).
Proof.
  intros Hu Hc Hid Hnone d'. unfold d'.
  rewrite (postOrder_spec d clk req u Hu). cbv zeta. cbn [fst snd orders].
  eexists. split; [reflexivity|]. split; [reflexivity|].
  set (o := extend (body req) _).
  set (d1 := {| users := users d; orders := orders d ++ [o];
                supportTickets := supportTickets d |}).
  assert (Hu1 : resolve d1 req' = Some u) by (by apply (resolve_again d req u Hu)).
  assert (Ho : addressed req' u o = true).
  { unfold addressed. rewrite Hid. apply andb_true_iff. split.
    - unfold o. read_props. by apply strict_eq_str.
    - apply (owned_by_caller d req u Hu). unfold o. by read_props. }
  assert (Hi : findIndex (addressed req' u) (orders d1) = Some (length (orders d)))
    by (by apply findIndex_snoc).
  rewrite (cancel_found d1 clk' req' u Hu1 _ o Hi)
    by (unfold d1; cbn [orders]; by apply list_lookup_middle).
  assert (Hst : strict_eq (get o "status") (VStr "placed") = true).
  { unfold o. by read_props. }
  rewrite Hst. unfold d1. cbn [users orders supportTickets].
  by rewrite insert_snoc.
Qed.

Lemma created_order_can_be_cancelled_witness :
  exists o,
    (serve two_users (at_time 1700000000007) PostOrders
       (as_user "U-1700000000001" cylinder "")).2 = Sent 201 (VObj o)
    /\ orders (serve two_users (at_time 1700000000007) PostOrders
                 (as_user "U-1700000000001" cylinder "")).1
       = orders two_users ++ [o]
    /\ serve (serve two_users (at_time 1700000000007) PostOrders
                (as_user "U-1700000000001" cylinder "")).1
             (at_time 8) PutOrderCancel
             (as_user "U-1700000000001" ∅ "ORD-1700000000007") =
         ({| users := users two_users;
             orders := orders two_users ++ [<["status" := VStr "cancelled"]> o];
             supportTickets := supportTickets two_users |},
          Sent 200 (VObj (<["status" := VStr "cancelled"]> o))).
Proof.
  apply (created_order_can_be_cancelled two_users (at_time 1700000000007)
           (as_user "U-1700000000001" cylinder "") alice_record (at_time 8)
           (as_user "U-1700000000001" ∅ "ORD-1700000000007"));
    [reflexivity | reflexivity | reflexivity |].
  intros x Hx. inversion Hx.
Defined.

(** X12. After a Register that succeeds with a string contact and a string
    password, Login with that contact and password answers 200 and leaves
    the store as it is.  When no user stored before matched that pair, the
    answer names the new account: its identifier [U-] followed by the clock
    reading of the registration, its name, and [isAdmin] false. *)
Theorem registered_user_can_log_in d clk req c pw clk' req' :
  truthy (get (body req) "name") = true ->
  get (body req) "contact" = VStr c -> c <> "" ->
  get (body req) "password" = VStr pw -> pw <> "" ->
  (forall v, v ∈ users d ->
     get v (if str_includes "@" c then "email" else "mobile") <> VStr c) ->
  get (body req') "contact" = VStr c ->
  get (body req') "password" = VStr pw ->
  let d' := (serve d clk PostRegister req).1 in
  exists usr,
    length (users d') = S (length (users d))
    /\ serve d' clk' PostLogin req' =
         (d', Sent 200 (VObj (object [ ("message", VStr "Login successful!");
                                       ("user", VObj usr) ])))
    /\ ((forall v, v ∈ users d ->
           ~ ((get v "email" = VStr c \/ get v "mobile" = VStr c)
              /\ get v "password" = VStr pw)) ->
        usr = object [ ("id", user_id_at (clk O));
                       ("name", get (body req) "name");
                       ("isAdmin", VBool false) ]).
Proof.
  intros Hn Hc Hce Hp Hpe Hfree Hc' Hp' d'. unfold d'.
  assert (Htp : truthy (get (body req) "password") = true).
  { rewrite Hp. simpl. apply negb_true_iff. by apply String.eqb_neq. }
  rewrite (register_spec d clk req c Hn Htp Hc Hce). cbv zeta.
  assert (He : existsb (fun v => strict_eq
                 (get v (if str_includes "@" c then "email" else "mobile")) (VStr c))
               (users d) = false).
  { destruct (existsb _ _) eqn:E; [|done]. apply existsb_elem in E as (v & Hv & Hm).
    apply strict_eq_str in Hm. by destruct (Hfree v Hv). }
  rewrite He. cbn [fst users].
  set (nu := object _).
  set (d1 := {| users := users d ++ [nu]; orders := orders d;
                supportTickets := supportTickets d |}).
  set (P := fun v : obj =>
         (strict_eq (get v "email") (VStr c) || strict_eq (get v "mobile") (VStr c))
         && strict_eq (get v "password") (VStr pw)).
  assert (HP : forall v, P v = true <->
            (get v "email" = VStr c \/ get v "mobile" = VStr c)
            /\ get v "password" = VStr pw).
  { intros v. unfold P. rewrite andb_true_iff, orb_true_iff, !strict_eq_str. tauto. }
  assert (Hnu : P nu = true
                /\ get nu "id" = user_id_at (clk O)
                /\ get nu "name" = get (body req) "name"
                /\ get nu "isAdmin" = VBool false).
  { assert (Hg : get nu "password" = get (body req) "password"
                  /\ get nu "email" = (if str_includes "@" c then VStr c else VNull)
                  /\ get nu "mobile" = (if str_includes "@" c then VNull else VStr c))
      by (unfold nu; repeat split).
    destruct Hg as (Hg1 & Hg2 & Hg3).
    split; [|unfold nu; repeat split].
    unfold P. rewrite Hg1, Hg2, Hg3, Hp.
    rewrite (proj2 (strict_eq_str (VStr pw) pw) eq_refl).
    destruct (str_includes "@" c);
      rewrite (proj2 (strict_eq_str (VStr c) c) eq_refl); by rewrite ?orb_true_r. }
  destruct Hnu as (HPnu & Hnid & Hnname & Hnadm).
  assert (Hlogin : serve d1 clk' PostLogin req' =
    match find P (users d1) with
    | Some v =>
        (d1, Sent 200 (VObj (object
           [ ("message", VStr "Login successful!");
             ("user", VObj (object [ ("id", get v "id"); ("name", get v "name");
                                     ("isAdmin", VBool (truthy (get v "isAdmin"))) ])) ])))
    | None => (d1, Sent 401 (message "Incorrect mobile number/email or password."))
    end).
  { unfold serve; simpl. unfold login. rewrite Hc', Hp'. reflexivity. }
  rewrite Hlogin. unfold d1 at 1. cbn [users]. rewrite find_snoc, HPnu.
  destruct (find P (users d)) as [v|] eqn:Hf.
  - eexists. split; [by rewrite length_app, Nat.add_comm|].
    split; [reflexivity|]. intros Hno. exfalso.
    apply find_elem in Hf as [Hin Hv]. apply HP in Hv. by apply (Hno v).
  - eexists. split; [by rewrite length_app, Nat.add_comm|].
    split; [reflexivity|]. intros _. by rewrite Hnid, Hnname, Hnadm.
Qed.

Lemma registered_user_can_log_in_witness :
  exists usr,
    serve (serve db0 (at_time 1700000000001) PostRegister (anonymous alice_body)).1
          (at_time 9) PostLogin (anonymous alice_login_body) =
      ((serve db0 (at_time 1700000000001) PostRegister (anonymous alice_body)).1,
       Sent 200 (VObj (object [ ("message", VStr "Login successful!");
                                ("user", VObj usr) ])))
    /\ usr = object [ ("id", user_id_at 1700000000001);
                      ("name", VStr "Alice"); ("isAdmin", VBool false) ].
Proof.
  assert (Hadmin : forall v, v ∈ users db0 -> v = admin_user).
  { intros v Hv. by apply list_elem_of_singleton in Hv. }
  destruct (registered_user_can_log_in db0 (at_time 1700000000001)
              (anonymous alice_body) "a@x.com" "p1" (at_time 9)
              (anonymous alice_login_body))
    as (usr & _ & Hs & Hnew);
    [reflexivity | reflexivity | discriminate | reflexivity | discriminate
    | | reflexivity | reflexivity |].
  - intros v Hv. rewrite (Hadmin v Hv). discriminate.
  - exists usr. split; [exact Hs|]. apply Hnew.
    intros v Hv. rewrite (Hadmin v Hv). intros [_ H]. discriminate H.
Defined.

(** X13. After Update Profile by a resolved caller, Get Profile by the same
    caller answers the record with [name], [email], [address] and
    [profilePic] as the update's body gave them, without [password], and
    with every other property as before the update. *)
Theorem updated_profile_is_read_back d clk req u clk' req' :
  resolve d req = Some u ->
  same_caller req req' ->
  let d' := (serve d clk PutProfile req).1 in
  exists p,
    serve d' clk' GetProfile req' = (d', Sent 200 (VObj p))
    /\ (forall k, k ∈ profile_fields -> p !! k = Some (get (body req) k))
    /\ p !! "password" = None
    /\ forall k, k ∉ profile_fields -> k <> "password" -> p !! k = u !! k.
Proof.
  intros Hu Hc d'.
  pose proof (resolve_after_putProfile d req u Hu clk req' Hc) as Hr.
  fold d' in Hr. eexists. split; [by apply getProfile_spec|].
  split; [|split].
  - intros k Hk. unfold profile_fields in Hk.
    repeat (apply elem_of_cons in Hk as [-> | Hk]); [| | | | inversion Hk];
      unfold extend; simpl; by simplify_map_eq.
  - apply lookup_delete_eq.
  - intros k Hk Hp. rewrite lookup_delete_ne by done.
    by apply get_extend_profile.
Qed.

Lemma updated_profile_is_read_back_witness :
  exists p,
    serve (serve two_users (at_time 9) PutProfile
             (as_user "U-1700000000001" full_profile_body "")).1
          (at_time 10) GetProfile (as_user "U-1700000000001" ∅ "")
    = ((serve two_users (at_time 9) PutProfile
          (as_user "U-1700000000001" full_profile_body "")).1, Sent 200 (VObj p))
    /\ (forall k, k ∈ profile_fields -> p !! k = Some (get full_profile_body k))
    /\ p !! "password" = None
    /\ forall k, k ∉ profile_fields -> k <> "password" -> p !! k = alice_record !! k.
Proof.
  apply (updated_profile_is_read_back two_users (at_time 9)
           (as_user "U-1700000000001" full_profile_body "") alice_record
           (at_time 10) (as_user "U-1700000000001" ∅ ""));
    reflexivity.
Defined.

(** X14. Update Profile is idempotent: the same caller sending the same
    body a second time gets the same answer, and the store after the second
    update is the store after the first. *)
Theorem update_profile_idempotent d clk req u clk' req' :
  resolve d req = Some u ->
  same_caller req req' ->
  body req' = body req ->
  let d' := (serve d clk PutProfile req).1 in
  serve d' clk' PutProfile req' = (d', (serve d clk PutProfile req).2).
Proof.
  intros Hu Hc Hb d'.
  pose proof (resolve_after_putProfile d req u Hu clk req' Hc) as Hr. fold d' in Hr.
  destruct (putProfile_at_first d req u Hu clk) as (i & Hi & Hiu & Hs).
  cbv zeta in Hs.
  set (u' := extend u _) in *.
  destruct (putProfile_at_first d' req' u' Hr clk') as (j & Hj & Hju & Hs').
  cbv zeta in Hs'. rewrite Hs'. unfold d' in *. rewrite Hs in *.
  cbn [fst snd users orders supportTickets] in *.
  assert (Hidu : get u' "id" = get u "id").
  { unfold u'. apply get_extend_profile_other, id_not_profile_field. }
  rewrite Hidu in Hj.
  rewrite (findIndex_insert_same _ _ i u u') in Hj; [| exact Hiu | by rewrite Hidu].
  rewrite Hi in Hj. injection Hj as <-.
  rewrite Hb. unfold u'. rewrite extend_profile_twice.
  by rewrite list_insert_insert_eq.
Qed.

Lemma update_profile_idempotent_witness :
  serve (serve two_users (at_time 9) PutProfile
           (as_user "U-1700000000001" full_profile_body "")).1
        (at_time 10) PutProfile (as_user "U-1700000000001" full_profile_body "")
  = ((serve two_users (at_time 9) PutProfile
        (as_user "U-1700000000001" full_profile_body "")).1,
     (serve two_users (at_time 9) PutProfile
        (as_user "U-1700000000001" full_profile_body "")).2).
Proof.
  apply (update_profile_idempotent two_users (at_time 9)
           (as_user "U-1700000000001" full_profile_body "") alice_record
           (at_time 10) (as_user "U-1700000000001" full_profile_body ""));
    reflexivity.
Defined.

(** X15. List Support Tickets answers, to a resolved caller, exactly the
    stored tickets whose [userId] is the caller's identifier, in order, and
    changes nothing; after Submit Support Ticket the same caller's list is
    the former list followed by the new ticket. *)
Theorem submitted_ticket_is_listed d clk req u clk' req' :
  resolve d req = Some u ->
  same_caller req req' ->
  let d' := (serve d clk PostTickets req).1 in
  let mine := List.filter (owned_by u) (supportTickets d) in
  exists t,
    (serve d clk PostTickets req).2 = Sent 201 (VObj t)
    /\ serve d clk' GetTickets req' = (d, Sent 200 (VArr (VObj <$> mine)))
    /\ serve d' clk' GetTickets req' = (d', Sent 200 (VArr (VObj <$> (mine ++ [t]))))
    /\ forall x, x ∈ mine <-> x ∈ supportTickets d /\ get x "userId" = get u "id".
Proof.
  intros Hu Hc d' mine. unfold d'.
  destruct (postTicket_spec d clk req u Hu) as (t & e & Hs & _ & _ & _ & _ & _ & _ & Hown).
  rewrite Hs. cbn [fst snd]. exists t. split; [reflexivity|].
  assert (Hu' : resolve d req' = Some u) by (by apply (resolve_again d req u Hu)).
  split; [by rewrite (serve_authenticated d clk' req' GetTickets getTickets u)|].
  split.
  - rewrite (serve_authenticated _ clk' req' GetTickets getTickets u)
      by (done || by apply (resolve_again d req u Hu)).
    unfold getTickets, attach. cbn [user supportTickets].
    change (fun t0 : obj => strict_eq (get t0 "userId") (get u "id")) with (owned_by u).
    rewrite List.filter_app. simpl.
    by rewrite (owned_by_caller d req u Hu t Hown).
  - intros x. unfold mine. rewrite filter_bool_elem.
    destruct (resolve_Some d req u Hu) as (_ & _ & h & _ & _ & Hid).
    unfold owned_by. rewrite Hid, strict_eq_str. done.
Qed.

Lemma submitted_ticket_is_listed_witness :
  exists t,
    (serve two_users (at_time 20) PostTickets
       (as_user "U-1700000000002" help_body "")).2 = Sent 201 (VObj t)
    /\ serve (serve two_users (at_time 20) PostTickets
                (as_user "U-1700000000002" help_body "")).1
             (at_time 21) GetTickets (as_user "U-1700000000002" ∅ "")
       = ((serve two_users (at_time 20) PostTickets
             (as_user "U-1700000000002" help_body "")).1,
          Sent 200 (VArr [VObj t])).
Proof.
  destruct (submitted_ticket_is_listed two_users (at_time 20)
              (as_user "U-1700000000002" help_body "") bob_record (at_time 21)
              (as_user "U-1700000000002" ∅ "") eq_refl eq_refl)
    as (t & H1 & _ & H2 & _).
  exists t. split; [exact H1 | exact H2].
Defined.

(** ** What no run of requests undoes *)

Section Runs.

Lemma run_snoc d tr e : run d (tr ++ [e]) = step (run d tr) e.
Proof. unfold run. by rewrite fold_left_app. Qed.

Lemma step_is_change d e : change d (ev_clock e) (ev_req e) (step d e).
Proof. apply serve_change. Qed.

Lemma change_user d clk req d' i u :
  change d clk req d' -> users d !! i = Some u ->
  exists u', users d' !! i = Some u'
             /\ forall k, k ∉ profile_fields -> u' !! k = u !! k.
Proof.
  intros [ | nu _ _ _ | j v Hv Hj | v _ | v j o _ _ _ _ | v t e _ _ _ _ _ _ ] Hi;
    cbn [users]; try (by exists u).
  - exists u. split; [by apply lookup_app_l_Some | done].
  - destruct (decide (j = i)) as [->|Hne].
    + rewrite Hj in Hi. injection Hi as ->. eexists.
      split; [apply list_lookup_insert_eq; by eapply lookup_lt_Some|].
      intros k Hk. by apply get_extend_profile.
    + exists u. split; [by rewrite list_lookup_insert_ne | done].
Qed.

Lemma change_order d clk req d' i o :
  change d clk req d' -> orders d !! i = Some o ->
  exists o', orders d' !! i = Some o'
             /\ (o' = o \/ (get o "status" = VStr "placed"
                            /\ o' = <["status" := VStr "cancelled"]> o)).
Proof.
  intros [ | nu _ _ _ | j v _ _ | v _ | v j x _ _ Hj Hst | v t e _ _ _ _ _ _ ] Hi;
    cbn [orders]; try (exists o; split; [done | by left]).
  - exists o. split; [by apply lookup_app_l_Some | by left].
  - destruct (decide (j = i)) as [->|Hne].
    + rewrite Hj in Hi. injection Hi as ->. eexists.
      split; [apply list_lookup_insert_eq; by eapply lookup_lt_Some|]. by right.
    + exists o. split; [by rewrite list_lookup_insert_ne | by left].
Qed.

Lemma change_tickets d clk req d' :
  change d clk req d' -> supportTickets d `prefix_of` supportTickets d'.
Proof.
  intros [ | | | | | ]; cbn [supportTickets]; try done. by apply prefix_app_r.
Qed.

Lemma change_user_id d clk req d' u :
  change d clk req d' -> u ∈ users d ->
  exists u', u' ∈ users d' /\ get u' "id" = get u "id".
Proof.
  intros Hch Hu. apply list_elem_of_lookup in Hu as [i Hi].
  destruct (change_user d clk req d' i u Hch Hi) as (u' & Hi' & Hk).
  exists u'. split; [by eapply list_elem_of_lookup_2|].
  unfold get. by rewrite (Hk "id") by apply id_not_profile_field.
Qed.

Lemma admin_only_first_change d clk req d' :
  admin_only_first d -> change d clk req d' -> admin_only_first d'.
Proof.
  intros (a & rest & Hus & Hid & Hadm & Hrest) Hch.
  destruct Hch as [ | nu _ Hnadm _ | j v _ Hj | v _ | v j o _ _ _ _ | v t e _ _ _ _ _ _ ];
    unfold admin_only_first; cbn [users]; try (by exists a, rest).
  - exists a, (rest ++ [nu]). rewrite Hus. split; [done|]. split; [done|].
    split; [done|]. intros u Hu. apply elem_of_app in Hu as [Hu|Hu]; [by apply Hrest|].
    by apply list_elem_of_singleton in Hu as ->.
  - rewrite Hus in Hj |- *.
    assert (Hkeep : forall b, get (extend v [ ("name", get b "name");
                                             ("email", get b "email");
                                             ("address", get b "address");
                                             ("profilePic", get b "profilePic") ])
                                 "isAdmin" = get v "isAdmin").
    { intros b. apply get_extend_profile_other.
      apply (bool_decide_unpack _). by vm_compute. }
    destruct j as [|j]; simpl in Hj.
    + injection Hj as <-. eexists _, rest. split; [reflexivity|].
      split; [by rewrite get_extend_profile_other by apply id_not_profile_field|].
      split; [by rewrite Hkeep | done].
    + exists a, (<[j := extend v [ ("name", get (body req) "name");
                                    ("email", get (body req) "email");
                                    ("address", get (body req) "address");
                                    ("profilePic", get (body req) "profilePic") ]]> rest).
      split; [reflexivity|]. split; [done|]. split; [done|].
      intros u Hu. apply elem_of_insert_inv in Hu as [-> | Hu]; [|by apply Hrest].
      rewrite Hkeep. apply Hrest. by eapply list_elem_of_lookup_2.
Qed.

Lemma admin_only_first_reachable d : reachable d -> admin_only_first d.
Proof.
  intros [tr ->]. induction tr as [|e tr IH] using rev_ind.
  - exists admin_user, []. repeat split. intros u Hu. inversion Hu.
  - rewrite run_snoc. eapply admin_only_first_change; [exact IH | apply step_is_change].
Qed.

Lemma orders_linked_change d clk req d' :
  orders_linked d -> change d clk req d' -> orders_linked d'.
Proof.
  intros Hl Hch o Ho.
  assert (Hold : forall x, x ∈ orders d ->
    (exists u, u ∈ users d' /\ get x "userId" = get u "id")
    /\ (exists t, get x "id" = VStr ("ORD-" +:+ show_int t))
    /\ (get x "status" = VStr "placed" \/ get x "status" = VStr "cancelled")).
  { intros x Hx. destruct (Hl x Hx) as ((u & Hu & Hxu) & Hid & Hst).
    split; [|done].
    destruct (change_user_id d clk req d' u Hch Hu) as (u' & Hu' & E).
    exists u'. split; [done | congruence]. }
  destruct Hch as [ | nu _ _ _ | j v _ _ | v Hv | v j x Hv _ Hj Hst
                  | v t e _ _ _ _ _ _ ];
    cbn [orders users] in *; try (by apply Hold).
  - apply elem_of_app in Ho as [Ho|Ho]; [by apply Hold|].
    apply list_elem_of_singleton in Ho as ->.
    destruct (resolve_Some d req v Hv) as (_ & Hin & _).
    split; [exists v; split; [done | by read_props]|].
    split; [exists (clk O); by read_props | left; by read_props].
  - apply elem_of_insert_inv in Ho as [-> | Ho]; [|by apply Hold].
    assert (Hx : x ∈ orders d) by (by eapply list_elem_of_lookup_2).
    destruct (Hold x Hx) as (Hu & Hid & _).
    rewrite !get_insert_ne by done. rewrite get_insert.
    split; [done|]. split; [done | by right].
Qed.

Lemma tickets_linked_change d clk req d' :
  tickets_linked d -> change d clk req d' -> tickets_linked d'.
Proof.
  intros Hl Hch t Ht.
  assert (Hold : forall x, x ∈ supportTickets d ->
    (exists u, u ∈ users d' /\ get x "userId" = get u "id")
    /\ get x "status" = VStr "open"
    /\ exists e, get x "thread" = VArr [VObj e]
                 /\ get e "from" = VStr "customer"
                 /\ get e "text" = get x "message").
  { intros x Hx. destruct (Hl x Hx) as ((u & Hu & Hxu) & Hrest).
    split; [|done].
    destruct (change_user_id d clk req d' u Hch Hu) as (u' & Hu' & E).
    exists u'. split; [done | congruence]. }
  destruct Hch as [ | nu _ _ _ | j v _ _ | v _ | v j x _ _ _ _
                  | v t' e Hv Hown Hst Hth Hfrom Htext ];
    cbn [supportTickets users] in *; try (by apply Hold).
  apply elem_of_app in Ht as [Ht|Ht]; [by apply Hold|].
  apply list_elem_of_singleton in Ht as ->.
  destruct (resolve_Some d req v Hv) as (_ & Hin & _).
  split; [by exists v|]. split; [done|]. by exists e.
Qed.

End Runs.

(** X16. No run of requests removes or reorders a user, and none changes a
    property of a stored user other than [name], [email], [address] and
    [profilePic]: identifier, password, mobile and admin flag stay what they
    were when the record was stored. *)
Theorem stored_users_keep_identity tr d i u :
  users d !! i = Some u ->
  exists u', users (run d tr) !! i = Some u'
             /\ (forall k, k ∉ profile_fields -> u' !! k = u !! k)
             /\ get u' "id" = get u "id"
             /\ get u' "password" = get u "password"
             /\ get u' "isAdmin" = get u "isAdmin".
Proof.
  intros Hi.
  assert (H : exists u', users (run d tr) !! i = Some u'
                         /\ forall k, k ∉ profile_fields -> u' !! k = u !! k).
  { induction tr as [|e tr IH] using rev_ind; [by exists u|].
    destruct IH as (u1 & H1 & Hk1). rewrite run_snoc.
    destruct (change_user _ _ _ _ i u1 (step_is_change (run d tr) e) H1)
      as (u2 & H2 & Hk2).
    exists u2. split; [exact H2|]. intros k Hk. by rewrite Hk2, Hk1. }
  destruct H as (u' & Hu' & Hk). exists u'. split; [exact Hu'|]. split; [exact Hk|].
  unfold get. repeat split; f_equal; apply Hk; apply (bool_decide_unpack _); by vm_compute.
Qed.

Lemma stored_users_keep_identity_witness :
  exists u', users alice_cancelled !! 1%nat = Some u'
             /\ get u' "id" = VStr "U-1700000000001"
             /\ get u' "password" = VStr "p1".
Proof.
  destruct (stored_users_keep_identity
              [ order_as "U-1700000000001" 1700000000007;
                cancel_as "U-1700000000001" "ORD-1700000000007" 1700000000008 ]
              two_users 1 alice_record eq_refl)
    as (u' & H & _ & Hid & Hpw & _).
  exists u'. split; [exact H|]. split; [exact Hid | exact Hpw].
Defined.

(** X17. No run of requests removes or reorders an order.  A stored order
    is afterwards either exactly as it was, or it was [placed] and is now
    the same order with status [cancelled]; an order that is not [placed]
    never changes again. *)
Theorem stored_orders_only_get_cancelled tr d i o :
  orders d !! i = Some o ->
  exists o', orders (run d tr) !! i = Some o'
             /\ (o' = o \/ (get o "status" = VStr "placed"
                            /\ o' = <["status" := VStr "cancelled"]> o))
             /\ (get o "status" <> VStr "placed" -> o' = o).
Proof.
  intros Hi.
  assert (H : exists o', orders (run d tr) !! i = Some o'
                /\ (o' = o \/ (get o "status" = VStr "placed"
                               /\ o' = <["status" := VStr "cancelled"]> o))).
  { induction tr as [|e tr IH] using rev_ind; [exists o; split; [done | by left]|].
    destruct IH as (o1 & H1 & Hc1). rewrite run_snoc.
    destruct (change_order _ _ _ _ i o1 (step_is_change (run d tr) e) H1)
      as (o2 & H2 & Hc2).
    exists o2. split; [exact H2|].
    destruct Hc1 as [-> | [Hp ->]]; [exact Hc2|].
    destruct Hc2 as [-> | [Hp2 _]]; [by right|].
    rewrite get_insert in Hp2. discriminate. }
  destruct H as (o' & Ho' & Hc). exists o'. split; [exact Ho'|]. split; [exact Hc|].
  intros Hnp. by destruct Hc as [-> | [Hp _]].
Qed.

Lemma stored_orders_only_get_cancelled_witness :
  exists o', orders alice_cancelled !! 0%nat = Some o'
             /\ (o' = alice_order "placed"
                 \/ (get (alice_order "placed") "status" = VStr "placed"
                     /\ o' = <["status" := VStr "cancelled"]> (alice_order "placed")))
             /\ (get (alice_order "placed") "status" <> VStr "placed" ->
                 o' = alice_order "placed").
Proof.
  apply (stored_orders_only_get_cancelled
           [ cancel_as "U-1700000000001" "ORD-1700000000007" 1700000000008 ]
           (run two_users [ order_as "U-1700000000001" 1700000000007 ])
           0 (alice_order "placed")).
  reflexivity.
Defined.

(** X18. No request modifies or removes a support ticket: after any run the
    tickets stored before are the first tickets of the store, unchanged and
    in the same order. *)
Theorem stored_tickets_never_change tr d :
  supportTickets d `prefix_of` supportTickets (run d tr).
Proof.
  induction tr as [|e tr IH] using rev_ind; [done|].
  rewrite run_snoc. etrans; [exact IH|].
  eapply change_tickets, step_is_change.
Qed.

(** X19. In every store the server reaches, the built-in admin is the first
    user and the only one whose [isAdmin] is set, so no sequence of requests
    grants admin rights: an admin route answers 200 exactly when the request
    carries the identifier [U-1670000000000]. *)
Theorem admin_rights_are_never_granted d clk r req :
  reachable d ->
  r ∈ admin_routes ->
  admin_only_first d
  /\ ((exists p, (serve d clk r req).2 = Sent 200 p)
      <-> x_user_id req = Some "U-1670000000000").
Proof.
  intros Hreach Hr. pose proof (admin_only_first_reachable d Hreach) as Hadm.
  split; [exact Hadm|].
  destruct Hadm as (a & rest & Hus & Hid & Hadmin & Hrest).
  assert (Hok : forall u, resolve d req = Some u -> truthy (get u "isAdmin") = true ->
                          exists p, (serve d clk r req).2 = Sent 200 p).
  { intros u Hu Ht. rewrite (serve_admin d clk req r u Hr Hu), Ht.
    unfold admin_routes in Hr.
    repeat (apply elem_of_cons in Hr as [-> | Hr]); [| | | inversion Hr];
      by eexists. }
  split.
  - intros [p Hp]. destruct (resolve d req) as [u|] eqn:Hu.
    + rewrite (serve_admin d clk req r u Hr Hu) in Hp.
      destruct (truthy (get u "isAdmin")) eqn:Ht; [|discriminate].
      destruct (resolve_Some d req u Hu) as (_ & Hin & h & Hh & _ & Hidu).
      rewrite Hus in Hin. apply elem_of_cons in Hin as [-> | Hin].
      * rewrite Hh. congruence.
      * rewrite (Hrest u Hin) in Ht. discriminate.
    + destruct (serve_unauthenticated d clk req r) as [m E]; [| | exact Hu |].
      * intros ->. unfold admin_routes in Hr.
        repeat (apply elem_of_cons in Hr as [Hr | Hr]; [discriminate|]). inversion Hr.
      * intros ->. unfold admin_routes in Hr.
        repeat (apply elem_of_cons in Hr as [Hr | Hr]; [discriminate|]). inversion Hr.
      * rewrite E in Hp. discriminate.
  - intros Hh. apply (Hok a).
    + unfold resolve, authMiddleware. rewrite Hh, Hus. simpl.
      by rewrite Hid.
    + by rewrite Hadmin.
Qed.

Lemma admin_rights_are_never_granted_witness :
  (exists p, (serve two_users (at_time 9) GetAdminUsers
                (as_user "U-1700000000001" ∅ "")).2 = Sent 200 p)
  <-> x_user_id (as_user "U-1700000000001" ∅ "") = Some "U-1670000000000".
Proof.
  apply (admin_rights_are_never_granted two_users (at_time 9) GetAdminUsers
           (as_user "U-1700000000001" ∅ "")
           (ex_intro _ [ register_alice 1700000000001;
                         register_bob 1700000000002 ] eq_refl)).
  in_list.
Defined.

(** X20. In every store the server reaches, each order belongs to a stored
    user (its [userId] is that user's identifier), its [id] is [ORD-]
    followed by a clock reading, and its status is [placed] or
    [cancelled]. *)
Theorem reachable_orders_are_linked d :
  reachable d -> orders_linked d.
Proof.
  intros [tr ->]. induction tr as [|e tr IH] using rev_ind.
  - intros o Ho. inversion Ho.
  - rewrite run_snoc. eapply orders_linked_change; [exact IH | apply step_is_change].
Qed.

Lemma reachable_orders_are_linked_witness : orders_linked alice_cancelled.
Proof.
  apply (reachable_orders_are_linked alice_cancelled).
  exists [ register_alice 1700000000001; register_bob 1700000000002;
           order_as "U-1700000000001" 1700000000007;
           cancel_as "U-1700000000001" "ORD-1700000000007" 1700000000008 ].
  reflexivity.
Defined.

(** X21. In every store the server reaches, each support ticket belongs to
    a stored user, is [open], and has a thread of exactly one entry, from
    the customer, whose text is the ticket's message. *)
Theorem reachable_tickets_are_linked d :
  reachable d -> tickets_linked d.
Proof.
  intros [tr ->]. induction tr as [|e tr IH] using rev_ind.
  - intros t Ht. inversion Ht.
  - rewrite run_snoc. eapply tickets_linked_change; [exact IH | apply step_is_change].
Qed.

Lemma reachable_tickets_are_linked_witness : tickets_linked bob_asked.
Proof.
  apply (reachable_tickets_are_linked bob_asked).
  exists [ register_alice 1700000000001; register_bob 1700000000002;
           {| ev_route := PostTickets;
              ev_req := as_user "U-1700000000002" help_body "";
              ev_clock := at_time 1700000000020%Z |} ].
  reflexivity.
Defined.

(** ** Requests whose body was not parsed *)

Section Incoming.

Variables (d : db) (clk : clock) (r : route) (i : incoming).

Lemma run_chain_ext mws (h1 h2 : handler) req :
  (forall d' c q, h1 d' c q = h2 d' c q) ->
  run_chain mws h1 d clk req = run_chain mws h2 d clk req.
Proof.
  intros Hh. revert req. induction mws as [|mw mws IH]; intros req; simpl; [apply Hh|].
  destruct (mw d req); [apply IH | reflexivity].
Qed.

(** With a parsed body, or on a route that does not destructure it, the
    request is served as [serve] describes. *)
Lemma receive_parsed :
  is_Some (in_body i) \/ reads_body r = false ->
  receive d clk r i = serve d clk r (request_of i).
Proof.
  intros H. unfold receive, serve. apply run_chain_ext. intros d' c q.
  unfold destructuring. destruct H as [[b ->] | ->]; [done|].
  by destruct (in_body i).
Qed.

(** Without one, a handler that destructures it throws once the
    middlewares have let the request through. *)
Lemma receive_bodiless :
  in_body i = None -> reads_body r = true ->
  receive d clk r i =
    if bool_decide (r = PostRegister \/ r = PostLogin) then (d, TypeError)
    else match resolve d (request_of i) with
         | Some _ => (d, TypeError)
         | None => serve d clk r (request_of i)
         end.
Proof.
  intros Hb Hr. unfold receive, serve, destructuring. rewrite Hb, Hr.
  destruct r; try discriminate Hr; simpl; try reflexivity;
    unfold resolve, authMiddleware;
    (destruct (x_user_id (request_of i)) as [h|]; [|done]);
    (destruct (String.eqb h ""); [done|]);
    by destruct (find _ (users d)).
Qed.

End Incoming.

(** X1. Whatever the store and the request, parsed body or none, a route
    answers with one of the status codes its middlewares and handler name.
    An exception escapes a handler only in Register, or in one of the four
    handlers that destructure [req.body] when the request has no parsed
    body.  Update Profile never answers 404: behind [authMiddleware] its
    lookup always finds the caller's record. *)
Theorem answers_of_each_route d clk r i :
  match (receive d clk r i).2 with
  | Sent s _ => s ∈ statuses r
  | TypeError => r = PostRegister \/ (in_body i = None /\ reads_body r = true)
  end
  /\ forall p, (receive d clk PutProfile i).2 <> Sent 404 p.
Proof.
  assert (H : forall r',
    match (receive d clk r' i).2 with
    | Sent s _ => s ∈ statuses r'
    | TypeError => r' = PostRegister \/ (in_body i = None /\ reads_body r' = true)
    end).
  { intros r'.
    pose proof (proj1 (status_codes_of_each_route d clk r' (request_of i))) as Hs.
    destruct (in_body i) as [b|] eqn:Hb.
    - rewrite (receive_parsed d clk r' i) by (left; rewrite Hb; by eexists).
      destruct (serve d clk r' (request_of i)).2; [exact Hs | by left].
    - destruct (reads_body r') eqn:Hr.
      + rewrite (receive_bodiless d clk r' i Hb Hr).
        case_bool_decide; [by right|].
        destruct (resolve d (request_of i)); [by right|].
        destruct (serve d clk r' (request_of i)).2; [exact Hs | by left].
      + rewrite (receive_parsed d clk r' i) by (by right).
        destruct (serve d clk r' (request_of i)).2; [exact Hs | by left]. }
  split; [apply H|].
  intros p Hp. specialize (H PutProfile). rewrite Hp in H. simpl in H.
  apply elem_of_cons in H as [H | H]; [discriminate|].
  apply list_elem_of_singleton in H. discriminate.
Qed.

(** X2. A handler throws in exactly two situations, and the store is
    unchanged in both.  The request has no parsed body and reaches a handler
    that destructures [req.body]: Register and Login always, Update Profile
    and Submit Ticket once the caller is resolved.  Or Register is sent a
    body whose name and password are present and whose contact is a
    non-zero number, [true] or an object, on which [includes] cannot be
    called. *)
Theorem exceptions_of_handlers d clk r i :
  ((receive d clk r i).2 = TypeError <->
     (in_body i = None /\ reads_body r = true
      /\ (r = PostRegister \/ r = PostLogin
          \/ exists u, resolve d (request_of i) = Some u))
     \/ (r = PostRegister
         /\ exists b, in_body i = Some b
            /\ truthy (get b "name") = true
            /\ truthy (get b "password") = true
            /\ ((exists n, get b "contact" = VNum n /\ n <> 0%Z)
                \/ get b "contact" = VBool true
                \/ exists o, get b "contact" = VObj o)))
  /\ ((receive d clk r i).2 = TypeError -> (receive d clk r i).1 = d).
Proof.
  pose proof (exception_only_from_register_contact d clk r (request_of i))
    as [Hiff Hkeep].
  destruct (in_body i) as [b|] eqn:Hb.
  - rewrite (receive_parsed d clk r i) by (left; rewrite Hb; by eexists).
    split; [|exact Hkeep]. rewrite Hiff.
    assert (Hbody : body (request_of i) = b) by (unfold request_of; by rewrite Hb).
    rewrite Hbody. split.
    + intros (-> & Hn & Hp & Hc). right. split; [done|]. by exists b.
    + intros [(H & _) | (-> & b' & [= <-] & Hn & Hp & Hc)]; [discriminate | done].
  - destruct (reads_body r) eqn:Hr.
    + rewrite (receive_bodiless d clk r i Hb Hr).
      case_bool_decide as Hopen.
      * split; [|done]. split; [|done]. intros _. left. repeat split. tauto.
      * destruct (resolve d (request_of i)) as [u|] eqn:Hu.
        -- split; [|done]. split; [|done]. intros _. left. repeat split.
           right; right. by exists u.
        -- destruct (serve_unauthenticated d clk (request_of i) r) as [m ->];
             [tauto | tauto | done |].
           split; [|done]. split; [discriminate|].
           intros [(_ & _ & [-> | [-> | [u [=]]]]) | (_ & b & [=] & _)]; tauto.
    + rewrite (receive_parsed d clk r i) by (by right).
      split; [|exact Hkeep]. rewrite Hiff. split.
      * intros (-> & _). discriminate Hr.
      * intros [(_ & [=] & _) | (_ & b & [=] & _)].
Qed.

Lemma exceptions_of_handlers_witness :
  (receive two_users (at_time 9) PostLogin (bodiless None)).2 = TypeError
  /\ (receive two_users (at_time 9) PostLogin (bodiless None)).1 = two_users.
Proof.
  assert (H : (receive two_users (at_time 9) PostLogin (bodiless None)).2 = TypeError).
  { apply (proj1 (exceptions_of_handlers two_users (at_time 9) PostLogin (bodiless None))).
    left. split; [reflexivity|]. split; [reflexivity|]. right; left. reflexivity. }
  split; [exact H|].
  exact (proj2 (exceptions_of_handlers two_users (at_time 9) PostLogin (bodiless None)) H).
Defined.

(** X7. Submit Support Ticket does not validate its input.  For a resolved
    caller and any parsed body it appends one ticket and answers 201 with
    it: the ticket is [open], carries the caller's identifier and name and
    [T-] followed by the first clock reading, and its thread is the single
    customer entry with the submitted message; a body without [message]
    gives a ticket whose message and entry text are [undefined]; the entry's
    timestamp is the ticket's [createdAt] whenever the clock reads the same
    at the handler's second and third reading.  When the request has no
    parsed body the handler throws and stores nothing. *)
Theorem submit_ticket_without_validation d clk i u :
  resolve d (request_of i) = Some u ->
  match in_body i with
  | None => receive d clk PostTickets i = (d, TypeError)
  | Some b =>
      exists t e,
        receive d clk PostTickets i =
          ({| users := users d; orders := orders d;
              supportTickets := supportTickets d ++ [t] |}, Sent 201 (VObj t))
        /\ get t "id" = VStr ("T-" +:+ show_int (clk O))
        /\ get t "userId" = get u "id"
        /\ get t "name" = get u "name"
        /\ get t "status" = VStr "open"
        /\ get t "message" = get b "message"
        /\ get t "thread" = VArr [VObj e]
        /\ get e "from" = VStr "customer"
        /\ get e "text" = get b "message"
        /\ (b !! "message" = None ->
            get t "message" = VUndefined /\ get e "text" = VUndefined)
        /\ (clk 1%nat = clk 2%nat -> get e "at" = get t "createdAt")
  end.
Proof.
  intros Hu. destruct (in_body i) as [b|] eqn:Hb.
  - rewrite (receive_parsed d clk PostTickets i) by (left; rewrite Hb; by eexists).
    pose proof (submit_ticket_always_creates d clk (request_of i) u Hu) as H.
    assert (Hbody : body (request_of i) = b) by (unfold request_of; by rewrite Hb).
    by rewrite Hbody in H.
  - rewrite (receive_bodiless d clk PostTickets i Hb eq_refl).
    rewrite bool_decide_eq_false_2 by (intros [? | ?]; discriminate).
    by rewrite Hu.
Qed.

Lemma submit_ticket_without_validation_witness :
  receive two_users (at_time 1700000000020) PostTickets
          (bodiless (Some "U-1700000000002"))
  = (two_users, TypeError)
  /\ exists t e,
       receive two_users (at_time 1700000000020) PostTickets
               (with_body (Some "U-1700000000002") ∅) =
         ({| users := users two_users; orders := orders two_users;
             supportTickets := supportTickets two_users ++ [t] |}, Sent 201 (VObj t))
       /\ get t "thread" = VArr [VObj e]
       /\ get e "text" = VUndefined.
Proof.
  split.
  - exact (submit_ticket_without_validation two_users (at_time 1700000000020)
             (bodiless (Some "U-1700000000002")) bob_record eq_refl).
  - destruct (submit_ticket_without_validation two_users (at_time 1700000000020)
                (with_body (Some "U-1700000000002") ∅) bob_record eq_refl)
      as (t & e & Hs & _ & _ & _ & _ & _ & Hth & _ & _ & Hno & _).
    exists t, e. split; [exact Hs|]. split; [exact Hth|].
    exact (proj2 (Hno eq_refl)).
Defined.
